(** * Smart-contract generation from templates: the pipeline and its contract

    A shallow embedding of [generate_contracts.js] (the pipeline split into
    named stages) and of the older one-file script that performs the same
    steps inline, followed by the properties of the pipeline: required
    fields, service activation, cross-field validation, template selection
    and the agreement of the two scripts.

    The scripts work on whatever [JSON.parse] returns, so configurations are
    JavaScript values; property reads, truthiness, [Number(...)],
    [Array.prototype.includes] and [Array.prototype.join] follow ECMAScript.
    Numbers are IEEE-754 binary64 values ([spec_float]).  What belongs to
    the host and not to the scripts (text to number, number to text, the
    template engine) is a parameter of the development. *)

From Stdlib Require Import String Ascii List ZArith Bool DecimalString.
From Stdlib Require Import Floats.SpecFloat.
Import ListNotations.
Local Open Scope string_scope.
Set Warnings "-register-all".

(** ** JavaScript values and the operations the scripts use *)

Module JS.

Definition number := spec_float.

Inductive value : Type :=
| VUndefined
| VNull
| VBool (b : bool)
| VNumber (n : number)
| VString (s : string)
| VArray (elems : list value)
| VObject (props : list (string * value)).

(** The scripts throw [new Error(message)]; reading a property of
    [undefined] or [null], or converting an object that has no usable
    [toString], throws a [TypeError]. *)
Inductive exn : Type :=
| Error (message : string)
| TypeError.

Inductive result (A : Type) : Type :=
| Ok (a : A)
| Throw (e : exn).
Arguments Ok {A} a.
Arguments Throw {A} e.

Definition bind {A B : Type} (c : result A) (k : A -> result B) : result B :=
  match c with
  | Ok a => k a
  | Throw e => Throw e
  end.

Notation "x <- c ;; k" := (bind c (fun x => k))
  (at level 61, c at next level, right associativity).
Notation "c ;;; k" := (bind c (fun _ => k))
  (at level 61, right associativity).

(** What the host provides. *)
Class Host : Type := {
  (** [StringToNumber] of ECMAScript, the conversion behind [Number(s)] *)
  StringToNumber : string -> number;
  (** [Number::toString] *)
  NumberToString : number -> string;
  (** [Handlebars.compile(source)(context)] with the three helpers
      registered *)
  Handlebars_render : string -> value -> result string
}.

Definition pos_zero : number := S754_zero false.
Definition NaN : number := S754_nan.
Definition of_Z (z : Z) : number := binary_normalize 53 1024 z 0 false.

Definition is_zero (n : number) : bool :=
  match n with S754_zero _ => true | _ => false end.

Definition is_nan (n : number) : bool :=
  match n with S754_nan => true | _ => false end.

(** [ToBoolean] *)
Definition truthy (v : value) : bool :=
  match v with
  | VUndefined | VNull => false
  | VBool b => b
  | VNumber n => negb (is_zero n || is_nan n)
  | VString s => negb (s =? "")
  | VArray _ | VObject _ => true
  end.

Definition typeof (v : value) : string :=
  match v with
  | VUndefined => "undefined"
  | VNull => "object"
  | VBool _ => "boolean"
  | VNumber _ => "number"
  | VString _ => "string"
  | VArray _ | VObject _ => "object"
  end.

Definition nullish (v : value) : bool :=
  match v with VUndefined | VNull => true | _ => false end.

(** An object is the list of its own properties in enumeration order. *)
Fixpoint own_property (k : string) (props : list (string * value)) : option value :=
  match props with
  | [] => None
  | (k', v) :: rest => if k =? k' then Some v else own_property k rest
  end.

Definition has_own (k : string) (props : list (string * value)) : bool :=
  match own_property k props with Some _ => true | None => false end.

(** [o?.k].  The names the scripts read are neither array indices nor names
    found on a prototype, so a read of anything but an object that owns the
    name is [undefined]. *)
Definition get_opt (o : value) (k : string) : value :=
  match o with
  | VObject props =>
      match own_property k props with Some v => v | None => VUndefined end
  | _ => VUndefined
  end.

(** [o.k] *)
Definition get (o : value) (k : string) : result value :=
  if nullish o then Throw TypeError else Ok (get_opt o k).

(** [a || b] on values *)
Definition or_else (a b : value) : value := if truthy a then a else b.

(** [Object.values] *)
Definition Object_values (v : value) : list value :=
  match v with
  | VArray elems => elems
  | VObject props => map snd props
  | VString s => map (fun c => VString (String c "")) (list_ascii_of_string s)
  | _ => []
  end.

(** [v === 'literal'] *)
Definition strict_eq_string (v : value) (s : string) : bool :=
  match v with VString s' => s' =? s | _ => false end.

(** [SameValueZero], the comparison of [Array.prototype.includes].  Objects
    and arrays compare by identity; the two sides always come from different
    places of the parsed document, so they are never the same object. *)
Definition same_value_zero (a b : value) : bool :=
  match a, b with
  | VUndefined, VUndefined => true
  | VNull, VNull => true
  | VBool x, VBool y => Bool.eqb x y
  | VNumber x, VNumber y => (is_nan x && is_nan y) || SFeqb x y
  | VString x, VString y => x =? y
  | _, _ => false
  end.

Definition includes (l : list value) (x : value) : bool :=
  existsb (fun e => same_value_zero e x) l.

(** [activeServices.includes(s)] on an array of strings *)
Definition includes_string (l : list string) (s : string) : bool :=
  existsb (fun e => e =? s) l.

(** Array methods whose callback reads properties and so may throw. *)
Fixpoint array_some (f : value -> result bool) (l : list value) : result bool :=
  match l with
  | [] => Ok false
  | x :: rest => b <- f x ;; if b then Ok true else array_some f rest
  end.

Fixpoint array_filter (f : value -> result bool) (l : list value) : result (list value) :=
  match l with
  | [] => Ok []
  | x :: rest =>
      b <- f x ;;
      kept <- array_filter f rest ;;
      Ok (if b then x :: kept else kept)
  end.

Fixpoint array_map (f : value -> result value) (l : list value) : result (list value) :=
  match l with
  | [] => Ok []
  | x :: rest => y <- f x ;; ys <- array_map f rest ;; Ok (y :: ys)
  end.

Section Conversions.
Context `{Host}.

(** [ToString].  An array prints its elements joined by a comma, with
    [undefined] and [null] printing as nothing.  A parsed object inherits
    [Object.prototype.toString] unless it owns a property of that name, which
    is then not callable and leaves the conversion without a method. *)
Fixpoint ToString (v : value) : result string :=
  match v with
  | VUndefined => Ok "undefined"
  | VNull => Ok "null"
  | VBool b => Ok (if b then "true" else "false")
  | VNumber n => Ok (NumberToString n)
  | VString s => Ok s
  | VArray elems =>
      (fix join_elems (l : list value) : result string :=
         match l with
         | [] => Ok ""
         | x :: rest =>
             s <- (if nullish x then Ok "" else ToString x) ;;
             match rest with
             | [] => Ok s
             | _ :: _ => r <- join_elems rest ;; Ok (s ++ "," ++ r)
             end
         end) elems
  | VObject props =>
      if has_own "toString" props then Throw TypeError else Ok "[object Object]"
  end.

(** [Array.prototype.join(sep)] *)
Fixpoint join (sep : string) (l : list value) : result string :=
  match l with
  | [] => Ok ""
  | x :: rest =>
      s <- (if nullish x then Ok "" else ToString x) ;;
      match rest with
      | [] => Ok s
      | _ :: _ => r <- join sep rest ;; Ok (s ++ sep ++ r)
      end
  end.

(** [Number(v)] *)
Definition ToNumber (v : value) : result number :=
  match v with
  | VUndefined => Ok NaN
  | VNull => Ok pos_zero
  | VBool b => Ok (if b then of_Z 1 else pos_zero)
  | VNumber n => Ok n
  | VString s => Ok (StringToNumber s)
  | VArray _ | VObject _ => s <- ToString v ;; Ok (StringToNumber s)
  end.

(** [x > 0] on numbers: false for [NaN] *)
Definition gt_zero (n : number) : bool := SFltb pos_zero n.

End Conversions.

End JS.
Import JS.

(** ** The file system, as far as the scripts touch it *)

Module FS.

Record t : Type := {
  dirs : list string;
  files : list (string * string)
}.

Fixpoint lookup (p : string) (l : list (string * string)) : option string :=
  match l with
  | [] => None
  | (q, c) :: rest => if p =? q then Some c else lookup p rest
  end.

Definition existsSync (p : string) (fs : t) : bool :=
  existsb (fun d => d =? p) (dirs fs) ||
  match lookup p (files fs) with Some _ => true | None => false end.

Definition readFileSync (p : string) (fs : t) : result string :=
  match lookup p (files fs) with
  | Some c => Ok c
  | None =>
      if existsb (fun d => d =? p) (dirs fs)
      then Throw (Error "EISDIR: illegal operation on a directory, read")
      else Throw (Error ("ENOENT: no such file or directory, open '" ++ p ++ "'"))
  end.

(** [fs.mkdirSync(p, { recursive: true })] *)
Definition mkdirSync (p : string) (fs : t) : t :=
  {| dirs := p :: dirs fs; files := files fs |}.

(** [fs.writeFileSync(p, content, 'utf8')] into an existing directory: the
    file is created or replaced. *)
Definition writeFileSync (p content : string) (fs : t) : t :=
  {| dirs := dirs fs;
     files := (p, content) :: filter (fun e => negb (fst e =? p)) (files fs) |}.

(** [path.join(a, b)] for the plain relative names the scripts use *)
Definition path_join (a b : string) : string := a ++ "/" ++ b.

End FS.

(** ** What both scripts share: the catalog and [getRowsArray] *)

(** The [service] field of a descriptor: absent, one name, or an array. *)
Inductive service_field : Type :=
| NoService
| Service (s : string)
| Services (l : list string).

(** A template descriptor; an absent [required] reads as [undefined], which
    is falsy. *)
Record template : Type := {
  input : string;
  output : string;
  required : bool;
  service : service_field
}.

Definition ALL_TEMPLATES : list template := [
  {| input := "Token.sol.hbs"; output := "Token.sol"; required := true; service := NoService |};
  {| input := "Vesting.sol.hbs"; output := "Vesting.sol"; required := false; service := Service "vesting" |};
  {| input := "PoolManager.sol.hbs"; output := "PoolManager.sol"; required := false;
     service := Services ["vesting"; "unlocking"; "pools"] |};
  {| input := "IToken.sol.hbs"; output := "IToken.sol"; required := true; service := NoService |};
  {| input := "Unlocking.sol.hbs"; output := "Unlocking.sol"; required := false; service := Service "unlocking" |};
  {| input := "IPoolManager.sol.hbs"; output := "IPoolManager.sol"; required := false;
     service := Services ["vesting"; "unlocking"; "pools"] |}
].

Definition getRowsArray (rows : value) : list value :=
  if negb (truthy rows) || negb (typeof rows =? "object") then []
  else Object_values rows.

(** The six sections after defaulting: the object [projectData] of the
    staged script, the six constants of the one-file script. *)
Record ProjectData : Type := {
  initialData : value;
  vestingAndUnlocking : value;
  pools : value;
  agents : value;
  investmentRounds : value;
  projectServices : value
}.

Definition empty_rows : value := VObject [("rows", VObject [])].

Definition default_vestingAndUnlocking : value :=
  VObject [("tables", VObject [("unlocking", empty_rows); ("vesting", empty_rows)])].

Definition default_pools : value :=
  VObject [("tables", VObject [("pools", empty_rows)])].

Definition default_projectServices : value :=
  VObject [("serviceTables", VObject [("staking", empty_rows); ("farming", empty_rows)])].

(** The sections of [jsonData], each [jsonData.name || placeholder]. *)
Definition sections_of (jsonData : value) : result ProjectData :=
  i <- get jsonData "initialData" ;;
  v <- get jsonData "vestingAndUnlocking" ;;
  p <- get jsonData "pools" ;;
  a <- get jsonData "agents" ;;
  r <- get jsonData "investmentRounds" ;;
  s <- get jsonData "projectServices" ;;
  Ok {| initialData := or_else i (VObject []);
        vestingAndUnlocking := or_else v default_vestingAndUnlocking;
        pools := or_else p default_pools;
        agents := or_else a empty_rows;
        investmentRounds := or_else r empty_rows;
        projectServices := or_else s default_projectServices |}.

(** The object handed to the templates: the six sections and five flags. *)
Definition context_of (d : ProjectData) (activeServices : list string) : value :=
  VObject [
    ("initialData", initialData d);
    ("vestingAndUnlocking", vestingAndUnlocking d);
    ("pools", pools d);
    ("agents", agents d);
    ("investmentRounds", investmentRounds d);
    ("projectServices", projectServices d);
    ("hasVesting", VBool (includes_string activeServices "vesting"));
    ("hasUnlocking", VBool (includes_string activeServices "unlocking"));
    ("hasPools", VBool (includes_string activeServices "pools"));
    ("hasStaking", VBool (includes_string activeServices "staking"));
    ("hasFarming", VBool (includes_string activeServices "farming"))
  ].

(** [activeServices.push(name)] when [cond] holds *)
Definition push_if (cond : bool) (name : string) (activeServices : list string) : list string :=
  if cond then activeServices ++ [name] else activeServices.

Section Callbacks.
Context `{Host}.

(** The callback of [some] on the pool rows:
    [row => row.amount && Number(row.amount) > 0] *)
Definition positive_amount (row : value) : result bool :=
  amount <- get row "amount" ;;
  if truthy amount then
    amount' <- get row "amount" ;;
    n <- ToNumber amount' ;;
    Ok (gt_zero n)
  else Ok false.

(** The callback of [filter] on the unlocking rows: the row does not
    resolve. *)
Definition unresolved (validAgents validInvestmentRounds : list value) (row : value)
  : result bool :=
  ty <- get row "agent_optionType" ;;
  if strict_eq_string ty "agent" then
    v <- get row "agent_optionValue" ;; Ok (negb (includes validAgents v))
  else
    ty' <- get row "agent_optionType" ;;
    if strict_eq_string ty' "investmentRound" then
      v <- get row "agent_optionValue" ;; Ok (negb (includes validInvestmentRounds v))
    else Ok true.

(** The body of [templatesToGenerate.forEach]: each template is looked up,
    rendered and written; the first failure stops the loop and leaves what
    was written. *)
Fixpoint generate_each (templateDir outputDir : string) (templateContext : value)
    (templatesToGenerate : list template) (fs : FS.t) : result unit * FS.t :=
  match templatesToGenerate with
  | [] => (Ok tt, fs)
  | t :: rest =>
      let templatePath := FS.path_join templateDir (input t) in
      if negb (FS.existsSync templatePath fs) then
        (Throw (Error ("Template not found: " ++ templatePath)), fs)
      else
        match FS.readFileSync templatePath fs with
        | Throw e => (Throw e, fs)
        | Ok templateSource =>
            match Handlebars_render templateSource templateContext with
            | Throw e => (Throw e, fs)
            | Ok contractCode =>
                let outputPath := FS.path_join outputDir (output t) in
                generate_each templateDir outputDir templateContext rest
                  (FS.writeFileSync outputPath contractCode fs)
            end
        end
  end.

End Callbacks.

(** ** [generate_contracts.js] *)

Module Staged.
Section StagedScript.
Context `{Host}.

Definition TEMPLATE_DIR : string := "templates".

(** [parsed] is what [JSON.parse(fs.readFileSync(jsonPath, 'utf8'))] gave:
    the message of the error it threw, or the parsed document. *)
Definition loadProjectData (jsonPath : string) (parsed : string + value)
  : result ProjectData :=
  match parsed with
  | inl message =>
      Throw (Error ("Failed to read or parse JSON file at " ++ jsonPath ++ ": " ++ message))
  | inr jsonData =>
      projectData <- sections_of jsonData ;;
      (* !projectData.initialData.tokenName || !projectData.initialData.totalTokensAmount *)
      missing <- (tokenName <- get (initialData projectData) "tokenName" ;;
                  if negb (truthy tokenName) then Ok true
                  else
                    totalTokensAmount <- get (initialData projectData) "totalTokensAmount" ;;
                    Ok (negb (truthy totalTokensAmount))) ;;
      if missing then
        Throw (Error "Missing required fields in JSON: initialData.tokenName and initialData.totalTokensAmount are required")
      else Ok projectData
  end.

(** [section?.a?.b?.rows] *)
Definition rows_at (section : value) (a b : string) : value :=
  get_opt (get_opt (get_opt section a) b) "rows".

Definition determineActiveServices (projectData : ProjectData) : result (list string) :=
  let activeServices := [] in
  let activeServices :=
    push_if (0 <? length (getRowsArray (rows_at (vestingAndUnlocking projectData) "tables" "vesting")))%nat
      "vesting" activeServices in
  let activeServices :=
    push_if (0 <? length (getRowsArray (rows_at (vestingAndUnlocking projectData) "tables" "unlocking")))%nat
      "unlocking" activeServices in
  somePool <- array_some positive_amount
                (getRowsArray (rows_at (pools projectData) "tables" "pools")) ;;
  let activeServices := push_if somePool "pools" activeServices in
  let activeServices :=
    push_if (0 <? length (getRowsArray (rows_at (projectServices projectData) "serviceTables" "staking")))%nat
      "staking" activeServices in
  let activeServices :=
    push_if (0 <? length (getRowsArray (rows_at (projectServices projectData) "serviceTables" "farming")))%nat
      "farming" activeServices in
  Ok activeServices.

Definition validateServiceData (activeServices : list string) (projectData : ProjectData)
  : result unit :=
  (if includes_string activeServices "vesting" then
     if (length (getRowsArray (rows_at (pools projectData) "tables" "pools")) =? 0)%nat then
       Throw (Error "Vesting requires pool data")
     else if (length (getRowsArray (get_opt (agents projectData) "rows")) =? 0)%nat then
       Throw (Error "Vesting requires agent data")
     else Ok tt
   else Ok tt) ;;;
  if includes_string activeServices "unlocking" then
    agentsRows <- get (agents projectData) "rows" ;;
    let agentRows := getRowsArray agentsRows in
    roundsRows <- get (investmentRounds projectData) "rows" ;;
    let investmentRoundRows := getRowsArray roundsRows in
    if (length agentRows =? 0)%nat && (length investmentRoundRows =? 0)%nat then
      Throw (Error "Unlocking requires agent or investment round data")
    else
      validAgents <- array_map (fun row => get row "agentName") agentRows ;;
      validInvestmentRounds <-
        array_map (fun row => get row "source_name") investmentRoundRows ;;
      tables <- get (vestingAndUnlocking projectData) "tables" ;;
      unlocking <- get tables "unlocking" ;;
      unlockingRowsObject <- get unlocking "rows" ;;
      let unlockingRows := getRowsArray unlockingRowsObject in
      invalidRows <-
        array_filter (unresolved validAgents validInvestmentRounds) unlockingRows ;;
      invalidAgents <- array_map (fun row => get row "agent_optionValue") invalidRows ;;
      if (0 <? length invalidAgents)%nat then
        listed <- join ", " invalidAgents ;;
        Throw (Error ("Invalid agents in unlocking data: " ++ listed))
      else Ok tt
  else Ok tt.

(** The filter of step 3 of [main] *)
Definition selects (activeServices : list string) (t : template) : bool :=
  if required t then true
  else
    match service t with
    | Services l => existsb (fun s => includes_string activeServices s) l
    | Service s => includes_string activeServices s
    | NoService => false
    end.

Definition templatesToGenerate (activeServices : list string) : list template :=
  filter (selects activeServices) ALL_TEMPLATES.

Definition generateContracts (templates : list template) (projectData : ProjectData)
    (activeServices : list string) (outputDir : string) (fs : FS.t)
  : result unit * FS.t :=
  let templateContext := context_of projectData activeServices in
  generate_each TEMPLATE_DIR outputDir templateContext templates fs.

(** Step 2 of [main] *)
Definition load_and_validate (parsed : string + value)
  : result (ProjectData * list string) :=
  projectData <- loadProjectData "tokenomicsData.json" parsed ;;
  activeServices <- determineActiveServices projectData ;;
  validateServiceData activeServices projectData ;;;
  Ok (projectData, activeServices).

(** [main]: whatever is thrown is caught, reported, and ends the run with
    status 1; the result is that error and the file system as it was left. *)
Definition main (parsed : string + value) (fs : FS.t) : result unit * FS.t :=
  match load_and_validate parsed with
  | Throw e => (Throw e, fs)
  | Ok (projectData, activeServices) =>
      let templates := templatesToGenerate activeServices in
      let outputDir := "generated_contracts" in
      let fs := if negb (FS.existsSync outputDir fs) then FS.mkdirSync outputDir fs else fs in
      generateContracts templates projectData activeServices outputDir fs
  end.

End StagedScript.
End Staged.

(** ** The one-file script *)

Module Mono.
Section MonoScript.
Context `{Host}.

Definition templateDir : string := "templates".

(** The catalog is the same literal as in the staged script. *)
Definition allTemplates : list template := ALL_TEMPLATES.

(** Lines 36 to 53: parse, take the six sections, check the two fields. *)
Definition load (parsed : string + value) : result ProjectData :=
  match parsed with
  | inl message => Throw (Error ("Failed to read or parse JSON: " ++ message))
  | inr jsonData =>
      d <- sections_of jsonData ;;
      (* !data.tokenName || !data.totalTokensAmount *)
      missing <- (tokenName <- get (initialData d) "tokenName" ;;
                  if negb (truthy tokenName) then Ok true
                  else
                    totalTokensAmount <- get (initialData d) "totalTokensAmount" ;;
                    Ok (negb (truthy totalTokensAmount))) ;;
      if missing then
        Throw (Error "Missing required fields in JSON: tokenName and totalTokensAmount are required")
      else Ok d
  end.

(** [getRowsArray(section.tables.name && section.tables.name.rows)] *)
Definition guarded_rows (section : value) (tables name : string) : result (list value) :=
  t <- get section tables ;;
  table <- get t name ;;
  rows <- (if truthy table then
             t' <- get section tables ;;
             table' <- get t' name ;;
             get table' "rows"
           else Ok table) ;;
  Ok (getRowsArray rows).

Record Rows : Type := {
  vestingRows : list value;
  unlockingRows : list value;
  poolRows : list value;
  stakingRows : list value;
  farmingRows : list value
}.

(** Lines 75 to 79 *)
Definition rows_of (d : ProjectData) : result Rows :=
  vestingRows <- guarded_rows (vestingAndUnlocking d) "tables" "vesting" ;;
  unlockingRows <- guarded_rows (vestingAndUnlocking d) "tables" "unlocking" ;;
  poolRows <- guarded_rows (pools d) "tables" "pools" ;;
  stakingRows <- guarded_rows (projectServices d) "serviceTables" "staking" ;;
  farmingRows <- guarded_rows (projectServices d) "serviceTables" "farming" ;;
  Ok {| vestingRows := vestingRows; unlockingRows := unlockingRows;
        poolRows := poolRows; stakingRows := stakingRows;
        farmingRows := farmingRows |}.

(** Lines 74 and 81 to 95 *)
Definition activeServices_of (r : Rows) : result (list string) :=
  let activeServices := [] in
  let activeServices :=
    push_if (0 <? length (vestingRows r))%nat "vesting" activeServices in
  let activeServices :=
    push_if (0 <? length (unlockingRows r))%nat "unlocking" activeServices in
  somePool <- array_some positive_amount (poolRows r) ;;
  let activeServices := push_if somePool "pools" activeServices in
  let activeServices :=
    push_if (0 <? length (stakingRows r))%nat "staking" activeServices in
  let activeServices :=
    push_if (0 <? length (farmingRows r))%nat "farming" activeServices in
  Ok activeServices.

(** Lines 98 to 122 *)
Definition validate (activeServices : list string) (d : ProjectData) (r : Rows)
  : result unit :=
  (if includes_string activeServices "vesting" then
     if (length (poolRows r) =? 0)%nat then
       Throw (Error "Vesting requires pool data")
     else
       agentsRows <- get (agents d) "rows" ;;
       if (length (getRowsArray agentsRows) =? 0)%nat then
         Throw (Error "Vesting requires agent data")
       else Ok tt
   else Ok tt) ;;;
  if includes_string activeServices "unlocking" then
    agentsRows <- get (agents d) "rows" ;;
    let agentRows := getRowsArray agentsRows in
    roundsRows <- get (investmentRounds d) "rows" ;;
    let investmentRoundRows := getRowsArray roundsRows in
    if (length agentRows =? 0)%nat && (length investmentRoundRows =? 0)%nat then
      Throw (Error "Unlocking requires agent or investment round data")
    else
      validAgents <- array_map (fun row => get row "agentName") agentRows ;;
      validInvestmentRounds <-
        array_map (fun row => get row "source_name") investmentRoundRows ;;
      invalidRows <-
        array_filter (unresolved validAgents validInvestmentRounds) (unlockingRows r) ;;
      invalidAgents <- array_map (fun row => get row "agent_optionValue") invalidRows ;;
      if (0 <? length invalidAgents)%nat then
        listed <- join ", " invalidAgents ;;
        Throw (Error ("Invalid agents in unlocking data: " ++ listed))
      else Ok tt
  else Ok tt.

(** Lines 125 to 134; [if (template.service)] is false for an absent field
    and for an empty name. *)
Definition selects (activeServices : list string) (t : template) : bool :=
  if required t then true
  else
    match service t with
    | NoService => false
    | Service s =>
        if negb (s =? "") then includes_string activeServices s else false
    | Services l => existsb (fun s => includes_string activeServices s) l
    end.

Definition templatesToGenerate (activeServices : list string) : list template :=
  filter (selects activeServices) allTemplates.

(** Lines 73 to 122 *)
Definition infer_and_validate (d : ProjectData) : result (list string) :=
  r <- rows_of d ;;
  activeServices <- activeServices_of r ;;
  validate activeServices d r ;;;
  Ok activeServices.

(** The whole script.  Before the rendering loop nothing is caught: the
    error ends the process; inside the loop it is caught, reported and the
    process exits with status 1. *)
Definition script (parsed : string + value) (fs : FS.t) : result unit * FS.t :=
  match load parsed with
  | Throw e => (Throw e, fs)
  | Ok d =>
      let outputDir := "Generated_contracts" in
      let fs := if negb (FS.existsSync outputDir fs) then FS.mkdirSync outputDir fs else fs in
      match infer_and_validate d with
      | Throw e => (Throw e, fs)
      | Ok activeServices =>
          generate_each templateDir outputDir (context_of d activeServices)
            (templatesToGenerate activeServices) fs
      end
  end.

End MonoScript.
End Mono.

(** ** A host for running the scripts on examples

    It reads and prints decimal integers, as ECMAScript does for integers
    below 10^21; fractions, exponents, white space and the other numeral
    forms are left out, and the sample configurations use none of them.  No
    theorem about all configurations depends on this host. *)

Module SampleHost.

Definition negative (i : Decimal.signed_int) : bool :=
  match i with Decimal.Neg _ => true | Decimal.Pos _ => false end.

Definition string_to_number (s : string) : number :=
  match s with
  | EmptyString => pos_zero
  | _ =>
      match NilZero.int_of_string s with
      | Some i => binary_normalize 53 1024 (Z.of_int i) 0 (negative i)
      | None => NaN
      end
  end.

(** The integer a number stands for, if it is one. *)
Definition to_integer (n : number) : option Z :=
  match n with
  | S754_zero _ => Some 0%Z
  | S754_finite sign m e =>
      let magnitude :=
        if (0 <=? e)%Z then Some (Z.pos m * 2 ^ e)%Z
        else if (Z.pos m mod 2 ^ (- e) =? 0)%Z then Some (Z.pos m / 2 ^ (- e))%Z
        else None in
      match magnitude with
      | Some z => Some (if sign then (- z)%Z else z)
      | None => None
      end
  | _ => None
  end.

Definition number_to_string (n : number) : string :=
  match n with
  | S754_nan => "NaN"
  | S754_infinity sign => if sign then "-Infinity" else "Infinity"
  | _ =>
      match to_integer n with
      | Some z => NilZero.string_of_int (Z.to_int z)
      | None => "NaN"
      end
  end.

(** A stand-in for the template engine: the source, unchanged. *)
Definition render (source : string) (context : value) : result string := Ok source.

Definition host : Host := {|
  StringToNumber := string_to_number;
  NumberToString := number_to_string;
  Handlebars_render := render
|}.

End SampleHost.

(** ** The vocabulary of the specification *)

(** The specification names kinds of errors; the scripts throw plain
    [Error]s, told apart by their message. *)
Definition ConfigLoadError (jsonPath message : string) : exn :=
  Error ("Failed to read or parse JSON file at " ++ jsonPath ++ ": " ++ message).

Definition MissingRequiredFieldError : exn :=
  Error "Missing required fields in JSON: initialData.tokenName and initialData.totalTokensAmount are required".

(** The same two errors as the one-file script words them. *)
Definition Mono_ConfigLoadError (message : string) : exn :=
  Error ("Failed to read or parse JSON: " ++ message).

Definition Mono_MissingRequiredFieldError : exn :=
  Error "Missing required fields in JSON: tokenName and totalTokensAmount are required".

Definition VestingDataError (message : string) : exn := Error message.

Definition UnlockingDataError : exn :=
  Error "Unlocking requires agent or investment round data".

Definition InvalidAgentReferenceError (listed : string) : exn :=
  Error ("Invalid agents in unlocking data: " ++ listed).

(** The row collections of a loaded configuration. *)
Definition vesting_rows (d : ProjectData) : list value :=
  getRowsArray (Staged.rows_at (vestingAndUnlocking d) "tables" "vesting").

Definition unlocking_rows (d : ProjectData) : list value :=
  getRowsArray (Staged.rows_at (vestingAndUnlocking d) "tables" "unlocking").

Definition pool_rows (d : ProjectData) : list value :=
  getRowsArray (Staged.rows_at (pools d) "tables" "pools").

Definition staking_rows (d : ProjectData) : list value :=
  getRowsArray (Staged.rows_at (projectServices d) "serviceTables" "staking").

Definition farming_rows (d : ProjectData) : list value :=
  getRowsArray (Staged.rows_at (projectServices d) "serviceTables" "farming").

Definition agent_rows (d : ProjectData) : list value :=
  getRowsArray (get_opt (agents d) "rows").

Definition round_rows (d : ProjectData) : list value :=
  getRowsArray (get_opt (investmentRounds d) "rows").

(** The names a descriptor is gated on. *)
Definition service_names (t : template) : list string :=
  match service t with
  | NoService => []
  | Service s => [s]
  | Services l => l
  end.

(** [l1] is [l2] with some elements left out, the order kept. *)
Inductive subseq {A : Type} : list A -> list A -> Prop :=
| subseq_nil : subseq [] []
| subseq_skip (x : A) (l1 l2 : list A) : subseq l1 l2 -> subseq l1 (x :: l2)
| subseq_keep (x : A) (l1 l2 : list A) : subseq l1 l2 -> subseq (x :: l1) (x :: l2).

(** A value that is not an object or an array. *)
Definition primitive (v : value) : bool :=
  match v with
  | VArray _ | VObject _ => false
  | _ => true
  end.

(** An unlocking row resolves: its [agent_optionValue] is the [agentName] of
    an agent when its [agent_optionType] is ['agent'], the [source_name] of
    an investment round when it is ['investmentRound'], and never
    otherwise. *)
Definition resolves (agentRows investmentRoundRows : list value) (row : value) : bool :=
  let ty := get_opt row "agent_optionType" in
  let v := get_opt row "agent_optionValue" in
  if strict_eq_string ty "agent" then
    includes (map (fun r => get_opt r "agentName") agentRows) v
  else if strict_eq_string ty "investmentRound" then
    includes (map (fun r => get_opt r "source_name") investmentRoundRows) v
  else false.

(** The values the validator lists: the [agent_optionValue] of every row
    that does not resolve, in row order. *)
Definition failing_values (agentRows investmentRoundRows unlockingRows : list value)
  : list value :=
  map (fun row => get_opt row "agent_optionValue")
      (filter (fun row => negb (resolves agentRows investmentRoundRows row)) unlockingRows).

(** Every section of a loaded configuration is truthy. *)
Definition loaded (d : ProjectData) : Prop :=
  truthy (initialData d) = true /\
  truthy (vestingAndUnlocking d) = true /\
  truthy (pools d) = true /\
  truthy (agents d) = true /\
  truthy (investmentRounds d) = true /\
  truthy (projectServices d) = true.

(** The three sections that hold named tables do hold them: the reads
    [section.tables] and [section.serviceTables] give neither [undefined]
    nor [null]. *)
Definition tables_present (d : ProjectData) : Prop :=
  nullish (get_opt (vestingAndUnlocking d) "tables") = false /\
  nullish (get_opt (pools d) "tables") = false /\
  nullish (get_opt (projectServices d) "serviceTables") = false.

Create HintDb throws.

(** Every error a computation can throw satisfies [P]. *)
Definition throws_among {A : Type} (P : exn -> Prop) (c : result A) : Prop :=
  forall e, c = Throw e -> P e.

Definition type_errors_only {A : Type} (c : result A) : Prop :=
  throws_among (fun e => e = TypeError) c.

(** The errors of the cross-field validation. *)
Definition validation_error (e : exn) : Prop :=
  e = VestingDataError "Vesting requires pool data" \/
  e = VestingDataError "Vesting requires agent data" \/
  e = UnlockingDataError \/
  (exists listed, e = InvalidAgentReferenceError listed) \/
  e = TypeError.

Section Vocabulary.
Context `{Host}.

(** A pool row activates ['pools']: its [amount] is truthy and converts to
    a number greater than zero. *)
Definition activates (row : value) : Prop :=
  truthy (get_opt row "amount") = true /\
  exists n, ToNumber (get_opt row "amount") = Ok n /\ gt_zero n = true.

(** The run fails in one of the stages that come before any output: the
    loading (with its check of the two required fields), the inference of
    the active services, or the cross-field validation. *)
Inductive fails_before_output (parsed : string + value) (e : exn) : Prop :=
| fails_loading :
    Staged.loadProjectData "tokenomicsData.json" parsed = Throw e ->
    fails_before_output parsed e
| fails_inference (d : ProjectData) :
    Staged.loadProjectData "tokenomicsData.json" parsed = Ok d ->
    Staged.determineActiveServices d = Throw e ->
    fails_before_output parsed e
| fails_validation (d : ProjectData) (activeServices : list string) :
    Staged.loadProjectData "tokenomicsData.json" parsed = Ok d ->
    Staged.determineActiveServices d = Ok activeServices ->
    Staged.validateServiceData activeServices d = Throw e ->
    fails_before_output parsed e.

(** The same for the one-file script. *)
Inductive Mono_fails_before_output (parsed : string + value) (e : exn) : Prop :=
| Mono_fails_loading :
    Mono.load parsed = Throw e -> Mono_fails_before_output parsed e
| Mono_fails_validation (d : ProjectData) :
    Mono.load parsed = Ok d ->
    Mono.infer_and_validate d = Throw e ->
    Mono_fails_before_output parsed e.

(** What a run settles before it renders anything: the active services,
    the selected templates and the context handed to them. *)
Definition Staged_plan (parsed : string + value)
  : result (list string * list template * value) :=
  match Staged.load_and_validate parsed with
  | Ok (d, activeServices) =>
      Ok (activeServices, Staged.templatesToGenerate activeServices,
          context_of d activeServices)
  | Throw e => Throw e
  end.

Definition Mono_plan (parsed : string + value)
  : result (list string * list template * value) :=
  d <- Mono.load parsed ;;
  activeServices <- Mono.infer_and_validate d ;;
  Ok (activeServices, Mono.templatesToGenerate activeServices,
      context_of d activeServices).

End Vocabulary.

(** The six sections: name, placeholder, and where the loader puts them. *)
Definition section_defaults : list (string * value * (ProjectData -> value)) := [
  ("initialData", VObject [], initialData);
  ("vestingAndUnlocking", default_vestingAndUnlocking, vestingAndUnlocking);
  ("pools", default_pools, pools);
  ("agents", empty_rows, agents);
  ("investmentRounds", empty_rows, investmentRounds);
  ("projectServices", default_projectServices, projectServices)
].

(** The row arrays of the one-file script, when its reads go through. *)
Definition rows_record (d : ProjectData) : Mono.Rows :=
  {| Mono.vestingRows := vesting_rows d;
     Mono.unlockingRows := unlocking_rows d;
     Mono.poolRows := pool_rows d;
     Mono.stakingRows := staking_rows d;
     Mono.farmingRows := farming_rows d |}.

(** A parsed document that lacks one of the two required fields. *)
Definition missing_required_field (parsed : string + value) : Prop :=
  exists jsonData d,
    parsed = inr jsonData /\ sections_of jsonData = Ok d /\
    (truthy (get_opt (initialData d) "tokenName") = false \/
     truthy (get_opt (initialData d) "totalTokensAmount") = false).

(** ** Sample configurations *)

Module Samples.

Definition num (z : Z) : value := VNumber (of_Z z).

Definition token : value :=
  VObject [("tokenName", VString "T"); ("totalTokensAmount", num 1000)].

Definition tables (l : list (string * value)) : value :=
  VObject [("tables", VObject (map (fun '(name, rows) => (name, VObject [("rows", rows)])) l))].

Definition rows (l : list (string * value)) : value := VObject [("rows", VObject l)].

(** One unlocking row that names the agent it refers to; nothing else. *)
Definition unlocking_only : value :=
  VObject [
    ("initialData", token);
    ("vestingAndUnlocking",
       tables [("unlocking",
                VObject [("u1", VObject [("agent_optionType", VString "agent");
                                         ("agent_optionValue", VString "alice")])])]);
    ("agents", rows [("a1", VObject [("agentName", VString "alice")])])
  ].

(** A [pools] section that is there, but [null]. *)
Definition null_pools : value :=
  VObject [("initialData", token); ("pools", VNull)].

(** A [pools] section that is there, but has no [tables]. *)
Definition pools_without_tables : value :=
  VObject [("initialData", token); ("pools", VObject [])].

(** Loaded configurations, given by the sections that are not
    placeholders. *)
Definition config (vestingAndUnlocking pools agents : value) : ProjectData :=
  {| initialData := token;
     vestingAndUnlocking := vestingAndUnlocking;
     pools := pools;
     agents := agents;
     investmentRounds := empty_rows;
     projectServices := default_projectServices |}.

Definition unlocking_only_loaded : ProjectData :=
  config
    (tables [("unlocking",
              VObject [("u1", VObject [("agent_optionType", VString "agent");
                                       ("agent_optionValue", VString "alice")])])])
    default_pools
    (rows [("a1", VObject [("agentName", VString "alice")])]).

(** Two unlocking rows that name agents nobody declared. *)
Definition dangling_agents : ProjectData :=
  config
    (tables [("unlocking",
              VObject [("u1", VObject [("agent_optionType", VString "agent");
                                       ("agent_optionValue", VString "bob")]);
                       ("u2", VObject [("agent_optionType", VString "agent");
                                       ("agent_optionValue", VString "alice")]);
                       ("u3", VObject [("agent_optionValue", VString "bob")])])])
    default_pools
    (rows [("a1", VObject [("agentName", VString "alice")])]).

(** Pool rows with the amounts ["0"], [-5] and ["3"]. *)
Definition three_pools : ProjectData :=
  config default_vestingAndUnlocking
    (tables [("pools", VObject [("p1", VObject [("amount", VString "0")]);
                                ("p2", VObject [("amount", num (-5))]);
                                ("p3", VObject [("amount", VString "3")])])])
    empty_rows.

(** Pool rows with the amounts ["0"] and [-5] only. *)
Definition idle_pools : ProjectData :=
  config default_vestingAndUnlocking
    (tables [("pools", VObject [("p1", VObject [("amount", VString "0")]);
                                ("p2", VObject [("amount", num (-5))])])])
    empty_rows.

(** A [null] pool row before a row with amount ["3"]. *)
Definition null_pool_row : ProjectData :=
  config default_vestingAndUnlocking
    (tables [("pools", VObject [("p1", VNull);
                                ("p2", VObject [("amount", VString "3")])])])
    empty_rows.

(** A pool row whose amount is an object that owns a [toString] entry. *)
Definition object_amount : ProjectData :=
  config default_vestingAndUnlocking
    (tables [("pools",
              VObject [("p1", VObject [("amount", VObject [("toString", num 1)])])])])
    empty_rows.

(** Vesting and unlocking rows, a pool row, no agent and no investment
    round. *)
Definition vesting_and_unlocking_no_agents : ProjectData :=
  config
    (tables [("unlocking", VObject [("u1", VObject [])]);
             ("vesting", VObject [("v1", VObject [])])])
    (tables [("pools", VObject [("p1", VObject [("amount", num 1)])])])
    empty_rows.

(** An unlocking row that is [null]. *)
Definition null_unlocking_row : ProjectData :=
  config
    (tables [("unlocking", VObject [("u1", VNull)])])
    default_pools
    (rows [("a1", VObject [("agentName", VString "alice")])]).

(** An unlocking row whose agent is an object that owns a [toString]
    entry. *)
Definition object_agent_value : ProjectData :=
  config
    (tables [("unlocking",
              VObject [("u1", VObject [("agent_optionType", VString "agent");
                                       ("agent_optionValue",
                                        VObject [("toString", num 1)])])])])
    default_pools
    (rows [("a1", VObject [("agentName", VString "alice")])]).

(** A vesting row and nothing else: no pool row, no agent row. *)
Definition vesting_alone : ProjectData :=
  config (tables [("vesting", VObject [("v1", VObject [])])]) default_pools empty_rows.

(** A vesting row and a pool row, no agent row. *)
Definition vesting_with_pool : ProjectData :=
  config (tables [("vesting", VObject [("v1", VObject [])])])
         (tables [("pools", VObject [("p1", VObject [("amount", num 1)])])])
         empty_rows.

(** A vesting row, a pool row with amount ["0"], an agent row: the
    document and what it loads to. *)
Definition vesting_idle_pool_document : value :=
  VObject [
    ("initialData", token);
    ("vestingAndUnlocking", tables [("vesting", VObject [("v1", VObject [])])]);
    ("pools", tables [("pools", VObject [("p1", VObject [("amount", VString "0")])])]);
    ("agents", rows [("a1", VObject [("agentName", VString "alice")])])
  ].

Definition vesting_idle_pool : ProjectData :=
  config (tables [("vesting", VObject [("v1", VObject [])])])
         (tables [("pools", VObject [("p1", VObject [("amount", VString "0")])])])
         (rows [("a1", VObject [("agentName", VString "alice")])]).

(** A document with vesting rows and no pools. *)
Definition vesting_alone_document : value :=
  VObject [
    ("initialData", token);
    ("vestingAndUnlocking", tables [("vesting", VObject [("v1", VObject [])])])
  ].

(** What the empty document [{}] loads to: six placeholders. *)
Definition all_placeholders : ProjectData :=
  {| initialData := VObject [];
     vestingAndUnlocking := default_vestingAndUnlocking;
     pools := default_pools;
     agents := empty_rows;
     investmentRounds := empty_rows;
     projectServices := default_projectServices |}.

(** The templates directory with its six sources. *)
Definition disk : FS.t :=
  {| FS.dirs := ["templates"];
     FS.files := map (fun t => (FS.path_join "templates" (input t), "// " ++ output t))
                     ALL_TEMPLATES |}.

End Samples.

(** ** The rest of the two scripts

    The helpers handed to the template engine, the report of the skipped
    services, and the rendering loop taken apart into what it reads and what
    it writes. *)

Module Helpers.
Section HelperFunctions.
Context `{Host}.

(** [a * b] *)
Definition times (a b : value) : result number :=
  x <- ToNumber a ;;
  y <- ToNumber b ;;
  Ok (SFmul 53 1024 x y).

(** The helper [multiply].  The result comes with the line given to
    [console.warn], if any; the line prints both operands. *)
Definition multiply (a b : value) : result (value * option string) :=
  if negb (typeof a =? "number") || negb (typeof b =? "number") then
    printed_a <- ToString a ;;
    printed_b <- ToString b ;;
    Ok (VNumber pos_zero,
        Some ("Multiply helper received non-numeric values: a=" ++ printed_a
              ++ ", b=" ++ printed_b))
  else
    product <- times a b ;;
    Ok (VNumber product, None).

End HelperFunctions.

(** [Object.keys(object)], counted: the own enumerable names of an object,
    the indices of an array or of a string, nothing for a boolean or a
    number; [undefined] and [null] cannot be made an object. *)
Definition Object_keys_count (object : value) : result nat :=
  match object with
  | VUndefined | VNull => Throw TypeError
  | VObject props => Ok (List.length props)
  | VArray elems => Ok (List.length elems)
  | VString s => Ok (String.length s)
  | VBool _ | VNumber _ => Ok 0
  end.

(** The helper [length]: [Object.keys(object).length] *)
Definition length (object : value) : result value :=
  count <- Object_keys_count object ;;
  Ok (VNumber (of_Z (Z.of_nat count))).

End Helpers.

(** Lines 138 and 139 of the one-file script *)
Definition possibleServices : list string :=
  ["vesting"; "unlocking"; "pools"; "staking"; "farming"].

Definition skippedServices (activeServices : list string) : list string :=
  filter (fun s => negb (includes_string activeServices s)) possibleServices.

(** The test before the message "Minimal project: Only token contract
    generated." *)
Definition minimal_project (templatesToGenerate : list template) : bool :=
  (List.length templatesToGenerate =? 2)%nat.

Section Rendering.
Context `{Host}.

(** What one turn of the rendering loop reads: the template is looked up,
    read and rendered; the text to write, or the error that stops the
    loop. *)
Definition render_one (templateDir : string) (templateContext : value) (fs : FS.t)
    (t : template) : result string :=
  let templatePath := FS.path_join templateDir (input t) in
  if negb (FS.existsSync templatePath fs) then
    Throw (Error ("Template not found: " ++ templatePath))
  else
    templateSource <- FS.readFileSync templatePath fs ;;
    Handlebars_render templateSource templateContext.

(** The output names and texts the loop gets to, in order, and how it
    ends. *)
Fixpoint render_all (templateDir : string) (templateContext : value) (fs : FS.t)
    (templates : list template) : list (string * string) * result unit :=
  match templates with
  | [] => ([], Ok tt)
  | t :: rest =>
      match render_one templateDir templateContext fs t with
      | Throw e => ([], Throw e)
      | Ok contractCode =>
          let (written, outcome) := render_all templateDir templateContext fs rest in
          ((output t, contractCode) :: written, outcome)
      end
  end.

End Rendering.

(** The writes of the loop, one after the other. *)
Fixpoint write_all (outputDir : string) (written : list (string * string)) (fs : FS.t)
  : FS.t :=
  match written with
  | [] => fs
  | (name, contractCode) :: rest =>
      write_all outputDir rest
        (FS.writeFileSync (FS.path_join outputDir name) contractCode fs)
  end.

(** What a path holds after the writes, given what it held before: the text
    of the last write under that name, if any. *)
Fixpoint overlay (written : list (string * string)) (name : string)
    (before : option string) : option string :=
  match written with
  | [] => before
  | (name', contractCode) :: rest =>
      overlay rest name (if name =? name' then Some contractCode else before)
  end.

(** The writes with their full paths. *)
Definition under (outputDir : string) (written : list (string * string))
  : list (string * string) :=
  map (fun w => (FS.path_join outputDir (fst w), snd w)) written.

(** The file system once a script has made sure of its output directory. *)
Definition with_directory (outputDir : string) (fs : FS.t) : FS.t :=
  if negb (FS.existsSync outputDir fs) then FS.mkdirSync outputDir fs else fs.

(** The rows field of a service table holds rows: it is an object or an
    array with at least one entry. *)
Definition holds_rows (rows : value) : Prop :=
  match rows with
  | VObject (_ :: _) | VArray (_ :: _) => True
  | _ => False
  end.

(** ** More samples *)

Module MoreSamples.

(** A loaded configuration without any row. *)
Definition no_rows : ProjectData :=
  Samples.config default_vestingAndUnlocking default_pools empty_rows.

(** The templates directory without the vesting template. *)
Definition disk_without_vesting : FS.t :=
  {| FS.dirs := ["templates"];
     FS.files :=
       filter (fun e => negb (fst e =? "templates/Vesting.sol.hbs"))
              (FS.files Samples.disk) |}.

Definition token_template : template :=
  {| input := "Token.sol.hbs"; output := "Token.sol"; required := true;
     service := NoService |}.

Definition vesting_template : template :=
  {| input := "Vesting.sol.hbs"; output := "Vesting.sol"; required := false;
     service := Service "vesting" |}.

End MoreSamples.

(** ** Properties *)

Section Properties.
Context `{Host}.

Lemma filter_subseq {A : Type} (p : A -> bool) (l : list A) : subseq (filter p l) l.
Proof.
  induction l as [|x l IH]; simpl.
  - constructor.
  - destruct (p x); constructor; exact IH.
Qed.

Lemma includes_string_In (l : list string) (s : string) :
  includes_string l s = true <-> In s l.
Proof.
  unfold includes_string. rewrite existsb_exists. split.
  - intros [x [Hin Heq]]. apply String.eqb_eq in Heq. now subst.
  - intros Hin. exists s. split; [exact Hin | apply String.eqb_refl].
Qed.

Lemma selects_spec (activeServices : list string) (t : template) :
  Staged.selects activeServices t = true <->
  required t = true \/ exists s, In s (service_names t) /\ In s activeServices.
Proof.
  unfold Staged.selects, service_names.
  destruct (required t); [ split; auto | ].
  destruct (service t) as [|s|l].
  - split; [discriminate | intros [Hr | [s [[] _]]]; discriminate].
  - rewrite includes_string_In. split.
    + intros Hin. right. exists s. simpl. auto.
    + intros [Hr | [s' [[Heq | []] Hin]]]; [discriminate | now subst].
  - rewrite existsb_exists. split.
    + intros [s [Hl Hs]]. right. exists s. split; [exact Hl | now apply includes_string_In].
    + intros [Hr | [s [Hl Hs]]]; [discriminate |].
      exists s. split; [exact Hl | now apply includes_string_In].
Qed.

Lemma Mono_selects_catalog (activeServices : list string) :
  Mono.templatesToGenerate activeServices = Staged.templatesToGenerate activeServices.
Proof. reflexivity. Qed.

(** C7.  For every list of active services the selector returns a
    subsequence of the six-descriptor catalog (catalog order kept) that holds
    exactly the descriptors that are [required] or whose [service], a name
    or an array of names, has a name among the active services; the two
    [required] descriptors, with outputs Token.sol and IToken.sol, are always
    in it.  The one-file script selects the same list. *)
Theorem C7_selection_is_filtered_catalog (activeServices : list string) :
  length ALL_TEMPLATES = 6 /\
  subseq (Staged.templatesToGenerate activeServices) ALL_TEMPLATES /\
  (forall t, In t (Staged.templatesToGenerate activeServices) <->
             In t ALL_TEMPLATES /\
             (required t = true \/
              exists s, In s (service_names t) /\ In s activeServices)) /\
  (forall t, In t ALL_TEMPLATES -> required t = true ->
             In t (Staged.templatesToGenerate activeServices)) /\
  In "Token.sol" (map output (Staged.templatesToGenerate activeServices)) /\
  In "IToken.sol" (map output (Staged.templatesToGenerate activeServices)) /\
  Mono.templatesToGenerate activeServices = Staged.templatesToGenerate activeServices.
Proof.
  split; [reflexivity |].
  split; [apply filter_subseq |].
  assert (Hchar : forall t, In t (Staged.templatesToGenerate activeServices) <->
             In t ALL_TEMPLATES /\
             (required t = true \/
              exists s, In s (service_names t) /\ In s activeServices)).
  { intros t. unfold Staged.templatesToGenerate.
    rewrite filter_In, selects_spec. reflexivity. }
  split; [exact Hchar |].
  split; [intros t Hin Hreq; apply Hchar; auto |].
  split; [| split; [| apply Mono_selects_catalog]].
  - apply in_map_iff.
    exists {| input := "Token.sol.hbs"; output := "Token.sol"; required := true; service := NoService |}.
    split; [reflexivity |]. apply Hchar. simpl. auto.
  - apply in_map_iff.
    exists {| input := "IToken.sol.hbs"; output := "IToken.sol"; required := true; service := NoService |}.
    split; [reflexivity |]. apply Hchar. simpl. auto 6.
Qed.


(** *** Reading properties *)

Lemma truthy_not_nullish (v : value) : truthy v = true -> nullish v = false.
Proof. destruct v; simpl; congruence. Qed.

Lemma get_ok (o : value) (k : string) :
  nullish o = false -> get o k = Ok (get_opt o k).
Proof. unfold get. intros ->. reflexivity. Qed.

Lemma get_throws (o : value) (k : string) :
  nullish o = true -> get o k = Throw TypeError.
Proof. unfold get. intros ->. reflexivity. Qed.

Lemma or_else_truthy (a b : value) : truthy b = true -> truthy (or_else a b) = true.
Proof. unfold or_else. destruct (truthy a) eqn:E; auto. Qed.

Lemma sections_of_ok (jsonData : value) :
  nullish jsonData = false ->
  sections_of jsonData =
  Ok {| initialData := or_else (get_opt jsonData "initialData") (VObject []);
        vestingAndUnlocking :=
          or_else (get_opt jsonData "vestingAndUnlocking") default_vestingAndUnlocking;
        pools := or_else (get_opt jsonData "pools") default_pools;
        agents := or_else (get_opt jsonData "agents") empty_rows;
        investmentRounds := or_else (get_opt jsonData "investmentRounds") empty_rows;
        projectServices :=
          or_else (get_opt jsonData "projectServices") default_projectServices |}.
Proof.
  intros Hn. unfold sections_of. rewrite !(get_ok _ _ Hn). reflexivity.
Qed.

Lemma sections_of_throws (jsonData : value) :
  nullish jsonData = true -> sections_of jsonData = Throw TypeError.
Proof.
  intros Hn. unfold sections_of. rewrite (get_throws _ _ Hn). reflexivity.
Qed.

Lemma sections_of_loaded (jsonData : value) (d : ProjectData) :
  sections_of jsonData = Ok d -> loaded d.
Proof.
  destruct (nullish jsonData) eqn:Hn.
  - rewrite (sections_of_throws _ Hn). discriminate.
  - rewrite (sections_of_ok _ Hn). intros [= <-].
    unfold loaded; simpl. repeat split; apply or_else_truthy; reflexivity.
Qed.

(** *** Loading *)

Lemma Staged_load_after_sections (jsonPath : string) (jsonData : value) (d : ProjectData) :
  sections_of jsonData = Ok d ->
  Staged.loadProjectData jsonPath (inr jsonData) =
  if truthy (get_opt (initialData d) "tokenName") &&
     truthy (get_opt (initialData d) "totalTokensAmount")
  then Ok d else Throw MissingRequiredFieldError.
Proof.
  intros Hs. pose proof (sections_of_loaded _ _ Hs) as [Hi _].
  apply truthy_not_nullish in Hi.
  unfold Staged.loadProjectData. rewrite Hs. simpl.
  rewrite !(get_ok _ _ Hi). simpl.
  destruct (truthy (get_opt (initialData d) "tokenName")); simpl; [| reflexivity].
  destruct (truthy (get_opt (initialData d) "totalTokensAmount")); reflexivity.
Qed.

Lemma Mono_load_after_sections (jsonData : value) (d : ProjectData) :
  sections_of jsonData = Ok d ->
  Mono.load (inr jsonData) =
  if truthy (get_opt (initialData d) "tokenName") &&
     truthy (get_opt (initialData d) "totalTokensAmount")
  then Ok d else Throw Mono_MissingRequiredFieldError.
Proof.
  intros Hs. pose proof (sections_of_loaded _ _ Hs) as [Hi _].
  apply truthy_not_nullish in Hi.
  unfold Mono.load. rewrite Hs. simpl.
  rewrite !(get_ok _ _ Hi). simpl.
  destruct (truthy (get_opt (initialData d) "tokenName")); simpl; [| reflexivity].
  destruct (truthy (get_opt (initialData d) "totalTokensAmount")); reflexivity.
Qed.

Lemma Staged_load_loaded (jsonPath : string) (parsed : string + value) (d : ProjectData) :
  Staged.loadProjectData jsonPath parsed = Ok d -> loaded d.
Proof.
  destruct parsed as [m | jsonData]; [discriminate |].
  destruct (sections_of jsonData) as [d' | e] eqn:Hs.
  - rewrite (Staged_load_after_sections jsonPath _ _ Hs).
    destruct (_ && _); [| discriminate].
    intros [= <-]. eapply sections_of_loaded; eassumption.
  - unfold Staged.loadProjectData. rewrite Hs. discriminate.
Qed.

(** C3.  On a loaded configuration the check of the required fields throws
    the missing-field error exactly when [initialData.tokenName] is falsy or
    [initialData.totalTokensAmount] is falsy; an absent field, the empty
    string, zero and [null] are falsy.  Nothing else is looked at: when both
    are truthy the loading returns the configuration.  The one-file script
    checks the same two fields. *)
Theorem C3_required_fields (jsonPath : string) (jsonData : value) (d : ProjectData)
    (Hsections : sections_of jsonData = Ok d) :
  let tokenName := get_opt (initialData d) "tokenName" in
  let totalTokensAmount := get_opt (initialData d) "totalTokensAmount" in
  (Staged.loadProjectData jsonPath (inr jsonData) = Throw MissingRequiredFieldError <->
   truthy tokenName = false \/ truthy totalTokensAmount = false) /\
  (truthy tokenName = true -> truthy totalTokensAmount = true ->
   Staged.loadProjectData jsonPath (inr jsonData) = Ok d) /\
  (Mono.load (inr jsonData) = Throw Mono_MissingRequiredFieldError <->
   truthy tokenName = false \/ truthy totalTokensAmount = false) /\
  (truthy tokenName = true -> truthy totalTokensAmount = true ->
   Mono.load (inr jsonData) = Ok d) /\
  truthy VUndefined = false /\ truthy (VString "") = false /\
  truthy (VNumber pos_zero) = false /\ truthy VNull = false.
Proof.
  intros tokenName totalTokensAmount.
  rewrite (Staged_load_after_sections jsonPath _ _ Hsections).
  rewrite (Mono_load_after_sections _ _ Hsections).
  fold tokenName totalTokensAmount.
  destruct (truthy tokenName), (truthy totalTokensAmount); simpl;
    repeat split; intros; try discriminate; try reflexivity; auto;
    repeat match goal with
           | Hx : _ \/ _ |- _ => destruct Hx
           end; discriminate.
Qed.

(** *** Failing before any output *)

Lemma load_and_validate_fails (parsed : string + value) (e : exn) :
  fails_before_output parsed e -> Staged.load_and_validate parsed = Throw e.
Proof.
  unfold Staged.load_and_validate.
  intros [Hl | d Hl Hi | d act Hl Hi Hv]; rewrite Hl; simpl; try reflexivity;
    rewrite Hi; simpl; try reflexivity.
  rewrite Hv. reflexivity.
Qed.

Lemma missing_required_field_fails (parsed : string + value) :
  missing_required_field parsed ->
  fails_before_output parsed MissingRequiredFieldError.
Proof.
  intros (jsonData & d & -> & Hs & Hmiss).
  apply fails_loading. rewrite (Staged_load_after_sections _ _ _ Hs).
  destruct Hmiss as [-> | ->]; rewrite ?andb_false_r; reflexivity.
Qed.

Lemma Mono_failure_writes_no_file (parsed : string + value) (fs : FS.t) (e : exn) :
  Mono_fails_before_output parsed e ->
  exists fs', Mono.script parsed fs = (Throw e, fs') /\ FS.files fs' = FS.files fs.
Proof.
  unfold Mono.script. intros [Hl | d Hl Hv]; rewrite Hl.
  - exists fs. split; reflexivity.
  - rewrite Hv. eexists. split; [reflexivity |].
    destruct (negb _); reflexivity.
Qed.

(** C2.  A run that fails while loading (a read or parse failure, or a
    missing required field), while inferring the active services, or in the
    cross-field validation ends with that very error and leaves the file
    system exactly as it was: nothing is written, not even the output
    directory.  In particular a document that lacks [initialData.tokenName]
    or [initialData.totalTokensAmount] ends the run with the missing-field
    error and nothing written.  The one-file script has created its output
    directory by the time it validates, but a failure before its rendering
    loop leaves every file as it was. *)
Theorem C2_failure_writes_nothing (parsed : string + value) (fs : FS.t) :
  (forall e, fails_before_output parsed e -> Staged.main parsed fs = (Throw e, fs)) /\
  (missing_required_field parsed ->
   Staged.main parsed fs = (Throw MissingRequiredFieldError, fs)) /\
  (forall e, Mono_fails_before_output parsed e ->
             exists fs', Mono.script parsed fs = (Throw e, fs') /\
                         FS.files fs' = FS.files fs).
Proof.
  assert (Hmain : forall e, fails_before_output parsed e ->
                            Staged.main parsed fs = (Throw e, fs)).
  { intros e Hfail. unfold Staged.main.
    rewrite (load_and_validate_fails _ _ Hfail). reflexivity. }
  split; [exact Hmain |]. split.
  - intros Hmiss. apply Hmain, missing_required_field_fails, Hmiss.
  - intros e. apply Mono_failure_writes_no_file.
Qed.

(** *** The selection for a lone unlocking service *)

(** C1, as the code has it.  When validation passes and ['unlocking'] is the
    only active service, the selected outputs are Token.sol,
    PoolManager.sol, IToken.sol, Unlocking.sol, IPoolManager.sol, in that
    order, which is the order of the catalog. *)
Theorem C1_unlocking_only_outputs (parsed : string + value) (d : ProjectData)
    (activeServices : list string)
    (Hvalid : Staged.load_and_validate parsed = Ok (d, activeServices))
    (Honly : forall s, In s activeServices <-> s = "unlocking") :
  map output (Staged.templatesToGenerate activeServices) =
  ["Token.sol"; "PoolManager.sol"; "IToken.sol"; "Unlocking.sol"; "IPoolManager.sol"].
Proof.
  assert (Hu : includes_string activeServices "unlocking" = true)
    by (apply includes_string_In, Honly; reflexivity).
  assert (Hv : includes_string activeServices "vesting" = false).
  { destruct (includes_string activeServices "vesting") eqn:E; [| reflexivity].
    apply includes_string_In, Honly in E. discriminate. }
  unfold Staged.templatesToGenerate, ALL_TEMPLATES, Staged.selects; simpl.
  rewrite Hu, Hv. simpl. reflexivity.
Qed.


(** *** Activation of the services *)

Lemma In_push_if (cond : bool) (name : string) (l : list string) (s : string) :
  In s (push_if cond name l) <-> In s l \/ (cond = true /\ s = name).
Proof.
  unfold push_if. destruct cond.
  - rewrite in_app_iff. simpl. intuition congruence.
  - intuition congruence.
Qed.

Lemma nonempty_length {A : Type} (l : list A) : (0 <? length l)%nat = true <-> l <> [].
Proof.
  destruct l; cbn; split; intros Hl; try discriminate; try reflexivity.
  now contradiction Hl.
Qed.

Lemma empty_length {A : Type} (l : list A) : (length l =? 0)%nat = true <-> l = [].
Proof. destruct l; cbn; split; intros Hl; try discriminate; reflexivity. Qed.

Lemma determineActiveServices_spec (d : ProjectData) (activeServices : list string) :
  Staged.determineActiveServices d = Ok activeServices ->
  exists somePool,
    array_some positive_amount (pool_rows d) = Ok somePool /\
    (In "vesting" activeServices <-> vesting_rows d <> []) /\
    (In "unlocking" activeServices <-> unlocking_rows d <> []) /\
    (In "pools" activeServices <-> somePool = true) /\
    (In "staking" activeServices <-> staking_rows d <> []) /\
    (In "farming" activeServices <-> farming_rows d <> []).
Proof.
  unfold Staged.determineActiveServices.
  fold (vesting_rows d) (unlocking_rows d) (pool_rows d) (staking_rows d) (farming_rows d).
  destruct (array_some positive_amount (pool_rows d)) as [somePool | e]; [| discriminate].
  simpl. intros [= <-]. exists somePool. split; [reflexivity |].
  repeat split; rewrite !In_push_if, ?nonempty_length; simpl;
    intuition (try discriminate; try congruence).
Qed.

Lemma positive_amount_true (row : value) :
  positive_amount row = Ok true <-> activates row.
Proof.
  unfold positive_amount, activates. split.
  - destruct (nullish row) eqn:Hnull.
    + rewrite (get_throws _ _ Hnull). discriminate.
    + rewrite !(get_ok _ _ Hnull). simpl.
      destruct (truthy (get_opt row "amount")); [| discriminate].
      destruct (ToNumber (get_opt row "amount")) as [n | e]; simpl; [| discriminate].
      intros [= Hn]. split; [reflexivity |]. exists n. auto.
  - intros [Ht [n [Hn Hg]]].
    destruct (nullish row) eqn:Hnull.
    + destruct row; simpl in *; discriminate.
    + rewrite !(get_ok _ _ Hnull). simpl. rewrite Ht, Hn. simpl. now rewrite Hg.
Qed.

Lemma array_some_true (f : value -> result bool) (l : list value) :
  array_some f l = Ok true -> exists x, In x l /\ f x = Ok true.
Proof.
  induction l as [|x l IH]; simpl; [discriminate |].
  destruct (f x) as [[|] | e] eqn:Hf; simpl; try discriminate.
  - intros _. exists x. auto.
  - intros Hl. destruct (IH Hl) as [y [Hin Hy]]. exists y. auto.
Qed.

Lemma array_some_false (f : value -> result bool) (l : list value) :
  array_some f l = Ok false -> forall x, In x l -> f x = Ok false.
Proof.
  induction l as [|x l IH]; simpl; [intros _ y [] |].
  destruct (f x) as [[|] | e] eqn:Hf; simpl; try discriminate.
  intros Hl y [<- | Hin]; auto.
Qed.

Lemma array_some_returns (f : value -> result bool) (l : list value) :
  (forall x, In x l -> exists b, f x = Ok b) -> exists b, array_some f l = Ok b.
Proof.
  induction l as [|x l IH]; simpl; intros Hf; [eauto |].
  destruct (Hf x (or_introl eq_refl)) as [b ->]. simpl.
  destruct b; [eauto |]. apply IH. intros y Hy. apply Hf. auto.
Qed.

Lemma ToNumber_primitive (v : value) :
  primitive v = true -> exists n, ToNumber v = Ok n.
Proof. destruct v; simpl; try discriminate; eauto. Qed.

Lemma positive_amount_returns (row : value) :
  nullish row = false -> primitive (get_opt row "amount") = true ->
  exists b, positive_amount row = Ok b.
Proof.
  intros Hn Hp. unfold positive_amount. rewrite !(get_ok _ _ Hn). simpl.
  destruct (truthy _); [| eauto].
  destruct (ToNumber_primitive _ Hp) as [n ->]. simpl. eauto.
Qed.

(** How an [amount] of each primitive kind counts. *)
Lemma activates_by_amount (row : value) :
  match get_opt row "amount" with
  | VNumber n => activates row <-> gt_zero n = true
  | VString s => activates row <-> s <> "" /\ gt_zero (StringToNumber s) = true
  | VBool b => activates row <-> b = true
  | VUndefined | VNull => ~ activates row
  | VArray _ | VObject _ => True
  end.
Proof.
  unfold activates. destruct (get_opt row "amount") as [| |b|n|s|l|props]; simpl; auto.
  - intros [? _]; discriminate.
  - intros [? _]; discriminate.
  - split.
    + intros [Hb _]. exact Hb.
    + intros ->. split; [reflexivity |]. eexists. split; reflexivity.
  - split.
    + intros [_ [m [[= <-] Hg]]]. exact Hg.
    + intros Hg. split; [| eauto].
      destruct n as [| | |]; simpl in *; try reflexivity; discriminate.
  - split.
    + intros [Hs [m [[= <-] Hg]]]. split; [| exact Hg].
      intros ->. discriminate.
    + intros [Hs Hg]. split; [| eauto].
      destruct s; [congruence | reflexivity].
Qed.

(** C4, as the code has it.  Whenever the inference of the active services
    returns, ['pools'] is active exactly when some pool row has a truthy
    [amount] whose conversion to a number is greater than zero.  The
    inference returns, raising nothing, when no pool row is [null] and every
    [amount] is absent or a primitive value (null, a boolean, a number, a
    string). *)
Theorem C4_pools_activation (d : ProjectData) :
  (forall activeServices,
      Staged.determineActiveServices d = Ok activeServices ->
      (In "pools" activeServices <->
       exists row, In row (pool_rows d) /\ activates row)) /\
  (Forall (fun row => nullish row = false /\
                      primitive (get_opt row "amount") = true) (pool_rows d) ->
   exists activeServices, Staged.determineActiveServices d = Ok activeServices) /\
  (forall row,
      match get_opt row "amount" with
      | VNumber n => activates row <-> gt_zero n = true
      | VString s => activates row <-> s <> "" /\ gt_zero (StringToNumber s) = true
      | VBool b => activates row <-> b = true
      | VUndefined | VNull => ~ activates row
      | VArray _ | VObject _ => True
      end).
Proof.
  split; [| split; [| apply activates_by_amount]].
  - intros act Hact.
    destruct (determineActiveServices_spec _ _ Hact) as (b & Hsome & _ & _ & Hp & _).
    rewrite Hp. split.
    + intros ->. destruct (array_some_true _ _ Hsome) as [row [Hin Hrow]].
      exists row. split; [exact Hin | now apply positive_amount_true].
    + intros [row [Hin Hrow]]. destruct b; [reflexivity |].
      apply positive_amount_true in Hrow.
      rewrite (array_some_false _ _ Hsome row Hin) in Hrow. discriminate.
  - intros Hrows. rewrite Forall_forall in Hrows.
    destruct (array_some_returns positive_amount (pool_rows d)) as [b Hb].
    { intros row Hin. destruct (Hrows row Hin). now apply positive_amount_returns. }
    unfold Staged.determineActiveServices. fold (pool_rows d). rewrite Hb. simpl. eauto.
Qed.

(** *** The vesting rules *)

Lemma validate_vesting_pools (activeServices : list string) (d : ProjectData) :
  In "vesting" activeServices -> pool_rows d = [] ->
  Staged.validateServiceData activeServices d = Throw (VestingDataError "Vesting requires pool data").
Proof.
  intros Hv Hp. apply includes_string_In in Hv.
  unfold Staged.validateServiceData. rewrite Hv. fold (pool_rows d). rewrite Hp. reflexivity.
Qed.

Lemma validate_vesting_agents (activeServices : list string) (d : ProjectData) :
  In "vesting" activeServices -> pool_rows d <> [] -> agent_rows d = [] ->
  Staged.validateServiceData activeServices d = Throw (VestingDataError "Vesting requires agent data").
Proof.
  intros Hv Hp Ha. apply includes_string_In in Hv.
  unfold Staged.validateServiceData. rewrite Hv.
  fold (pool_rows d) (agent_rows d). rewrite Ha.
  destruct (pool_rows d); [congruence | reflexivity].
Qed.

(** C6, as the code has it.  When ['vesting'] is among the active services,
    whatever the others, the validation throws "Vesting requires pool data"
    if there is no pool row, and throws "Vesting requires agent data" if
    there are pool rows but no agent row. *)
Theorem C6_vesting_rules (activeServices : list string) (d : ProjectData)
    (Hvesting : In "vesting" activeServices) :
  (pool_rows d = [] ->
   Staged.validateServiceData activeServices d =
   Throw (VestingDataError "Vesting requires pool data")) /\
  (pool_rows d <> [] -> agent_rows d = [] ->
   Staged.validateServiceData activeServices d =
   Throw (VestingDataError "Vesting requires agent data")).
Proof.
  split; intros; [apply validate_vesting_pools | apply validate_vesting_agents]; assumption.
Qed.



(** *** What can be thrown *)

(** Induction on values, through the elements of arrays. *)
Lemma value_induction (P : value -> Prop) :
  P VUndefined -> P VNull -> (forall b, P (VBool b)) -> (forall n, P (VNumber n)) ->
  (forall s, P (VString s)) ->
  (forall elems, Forall P elems -> P (VArray elems)) ->
  (forall props, P (VObject props)) ->
  forall v, P v.
Proof.
  intros Hu Hn Hb Hnum Hs Ha Ho.
  fix IH 1. intros [| | b | n | s | elems | props];
    [exact Hu | exact Hn | apply Hb | apply Hnum | apply Hs | | apply Ho].
  apply Ha. induction elems as [|x rest IHrest]; constructor; [apply IH | exact IHrest].
Qed.

Lemma throws_among_Ok {A : Type} (P : exn -> Prop) (a : A) : throws_among P (Ok a).
Proof. intros e; discriminate. Qed.

Lemma throws_among_Throw {A : Type} (P : exn -> Prop) (e : exn) :
  P e -> throws_among P (@Throw A e).
Proof. intros HP e' [= <-]. exact HP. Qed.

Lemma throws_among_bind {A B : Type} (P : exn -> Prop) (c : result A) (k : A -> result B) :
  throws_among P c -> (forall a, throws_among P (k a)) -> throws_among P (bind c k).
Proof.
  intros Hc Hk e. destruct c as [a | e']; simpl.
  - apply Hk.
  - intros [= <-]. now apply Hc.
Qed.

Lemma throws_among_weaken {A : Type} (P : exn -> Prop) (c : result A) :
  type_errors_only c -> P TypeError -> throws_among P c.
Proof. intros Hc HP e He. apply Hc in He. now subst. Qed.

Lemma type_errors_only_get (o : value) (k : string) : type_errors_only (get o k).
Proof. intros e. unfold get. destruct (nullish o); [now intros [= <-] | discriminate]. Qed.

Lemma type_errors_only_ToString (v : value) : type_errors_only (ToString v).
Proof.
  induction v as [| | b | n | s | elems IH | props] using value_induction;
    try (intros e; simpl; discriminate).
  - simpl. induction IH as [|x rest Hx _ IHrest]; [apply throws_among_Ok |].
    apply throws_among_bind.
    + destruct (nullish x); [apply throws_among_Ok | exact Hx].
    + intros s. destruct rest; [apply throws_among_Ok |].
      apply throws_among_bind; [exact IHrest | intros; apply throws_among_Ok].
  - intros e. simpl. destruct (has_own "toString" props); [now intros [= <-] | discriminate].
Qed.

Lemma type_errors_only_join (sep : string) (l : list value) :
  type_errors_only (join sep l).
Proof.
  induction l as [|x rest IH]; simpl; [apply throws_among_Ok |].
  apply throws_among_bind.
  - destruct (nullish x); [apply throws_among_Ok | apply type_errors_only_ToString].
  - intros s. destruct rest; [apply throws_among_Ok |].
    apply throws_among_bind; [exact IH | intros; apply throws_among_Ok].
Qed.

Lemma type_errors_only_array_map (f : value -> result value) (l : list value) :
  (forall x, type_errors_only (f x)) -> type_errors_only (array_map f l).
Proof.
  intros Hf. induction l as [|x rest IH]; simpl; [apply throws_among_Ok |].
  apply throws_among_bind; [apply Hf |]. intros y.
  apply throws_among_bind; [exact IH | intros; apply throws_among_Ok].
Qed.

Lemma type_errors_only_array_filter (f : value -> result bool) (l : list value) :
  (forall x, type_errors_only (f x)) -> type_errors_only (array_filter f l).
Proof.
  intros Hf. induction l as [|x rest IH]; simpl; [apply throws_among_Ok |].
  apply throws_among_bind; [apply Hf |]. intros y.
  apply throws_among_bind; [exact IH | intros; apply throws_among_Ok].
Qed.

Lemma type_errors_only_unresolved (va vr : list value) (row : value) :
  type_errors_only (unresolved va vr row).
Proof.
  unfold unresolved.
  apply throws_among_bind; [apply type_errors_only_get |]. intros ty.
  destruct (strict_eq_string ty "agent").
  - apply throws_among_bind; [apply type_errors_only_get |].
    intros; apply throws_among_Ok.
  - apply throws_among_bind; [apply type_errors_only_get |]. intros ty'.
    destruct (strict_eq_string ty' "investmentRound"); [| apply throws_among_Ok].
    apply throws_among_bind; [apply type_errors_only_get |].
    intros; apply throws_among_Ok.
Qed.

#[local] Hint Resolve type_errors_only_get type_errors_only_join
  type_errors_only_unresolved : throws.
#[local] Hint Extern 1 (type_errors_only (array_map _ _)) =>
  apply type_errors_only_array_map; intros : throws.
#[local] Hint Extern 1 (type_errors_only (array_filter _ _)) =>
  apply type_errors_only_array_filter; intros : throws.

(** One step through a computation whose next read can only throw a
    [TypeError]. *)
Ltac next_read HT :=
  apply throws_among_bind;
  [ apply throws_among_weaken; [ auto with throws | exact HT ] | intros ? ].

(** What the validation can throw, rule by rule. *)
Lemma validateServiceData_throws (P : exn -> Prop) (activeServices : list string)
    (d : ProjectData) :
  (In "vesting" activeServices -> pool_rows d = [] ->
   P (VestingDataError "Vesting requires pool data")) ->
  (In "vesting" activeServices -> pool_rows d <> [] -> agent_rows d = [] ->
   P (VestingDataError "Vesting requires agent data")) ->
  (In "unlocking" activeServices -> P UnlockingDataError) ->
  (In "unlocking" activeServices -> forall listed, P (InvalidAgentReferenceError listed)) ->
  P TypeError ->
  throws_among P (Staged.validateServiceData activeServices d).
Proof.
  intros Hpool Hagent Hunl Hinv HT.
  unfold Staged.validateServiceData.
  apply throws_among_bind.
  { destruct (includes_string activeServices "vesting") eqn:Hv; [| apply throws_among_Ok].
    apply includes_string_In in Hv. fold (pool_rows d) (agent_rows d).
    destruct (length (pool_rows d) =? 0)%nat eqn:Hp.
    { apply throws_among_Throw, Hpool; [exact Hv | now apply empty_length]. }
    assert (Hp' : pool_rows d <> []) by (intros E; apply empty_length in E; congruence).
    destruct (length (agent_rows d) =? 0)%nat eqn:Ha; [| apply throws_among_Ok].
    apply throws_among_Throw, Hagent; [exact Hv | exact Hp' | now apply empty_length]. }
  intros _.
  destruct (includes_string activeServices "unlocking") eqn:Hu; [| apply throws_among_Ok].
  apply includes_string_In in Hu.
  do 2 next_read HT.
  destruct (_ && _); [apply throws_among_Throw, Hunl, Hu |].
  do 7 next_read HT.
  match goal with
  | |- context [(0 <? length ?vals)%nat] =>
      destruct (0 <? length vals)%nat; [| apply throws_among_Ok]
  end.
  next_read HT.
  apply throws_among_Throw, Hinv, Hu.
Qed.

(** The validation throws the two vesting messages, the unlocking message,
    a list of invalid agents, or a [TypeError], and nothing else. *)
Lemma validateServiceData_errors (activeServices : list string) (d : ProjectData) :
  throws_among validation_error (Staged.validateServiceData activeServices d).
Proof.
  apply validateServiceData_throws; unfold validation_error; intros; eauto 8.
Qed.

(** *** The array methods on rows that are not [null] *)

Lemma array_map_get (k : string) (l : list value) :
  Forall (fun row => nullish row = false) l ->
  array_map (fun row => get row k) l = Ok (map (fun row => get_opt row k) l).
Proof.
  induction 1 as [|x rest Hx _ IH]; simpl; [reflexivity |].
  rewrite (get_ok _ _ Hx), IH. reflexivity.
Qed.

Lemma array_filter_pure (f : value -> result bool) (g : value -> bool) (l : list value) :
  (forall x, In x l -> f x = Ok (g x)) -> array_filter f l = Ok (filter g l).
Proof.
  induction l as [|x rest IH]; simpl; intros Hf; [reflexivity |].
  rewrite (Hf x (or_introl eq_refl)), IH by (intros; apply Hf; auto). reflexivity.
Qed.

Lemma unresolved_pure (agentRows investmentRoundRows : list value) (row : value) :
  nullish row = false ->
  unresolved (map (fun r => get_opt r "agentName") agentRows)
             (map (fun r => get_opt r "source_name") investmentRoundRows) row =
  Ok (negb (resolves agentRows investmentRoundRows row)).
Proof.
  intros Hn. unfold unresolved, resolves. rewrite !(get_ok _ _ Hn). simpl.
  destruct (strict_eq_string (get_opt row "agent_optionType") "agent"); [reflexivity |].
  destruct (strict_eq_string (get_opt row "agent_optionType") "investmentRound");
    reflexivity.
Qed.

Lemma Forall_filter {A : Type} (P : A -> Prop) (p : A -> bool) (l : list A) :
  Forall P l -> Forall P (filter p l).
Proof.
  induction 1 as [|x rest Hx _ IH]; simpl; [constructor |].
  destruct (p x); [constructor |]; assumption.
Qed.

Lemma getRowsArray_nonempty (v : value) : getRowsArray v <> [] -> v <> VUndefined.
Proof. intros Hne ->. apply Hne. reflexivity. Qed.

Lemma get_opt_defined (o : value) (k : string) :
  get_opt o k <> VUndefined -> nullish o = false.
Proof. destruct o; simpl; congruence. Qed.

(** When there are unlocking rows, the unguarded read
    [vestingAndUnlocking.tables.unlocking.rows] goes through. *)
Lemma unlocking_rows_readable (d : ProjectData) :
  unlocking_rows d <> [] ->
  (tables <- get (vestingAndUnlocking d) "tables" ;;
   unlocking <- get tables "unlocking" ;;
   get unlocking "rows") =
  Ok (Staged.rows_at (vestingAndUnlocking d) "tables" "unlocking").
Proof.
  intros Hne. apply getRowsArray_nonempty in Hne. unfold Staged.rows_at in *.
  pose proof (get_opt_defined _ _ Hne) as Hu.
  assert (Hu' : get_opt (get_opt (vestingAndUnlocking d) "tables") "unlocking" <> VUndefined)
    by (intros E; rewrite E in Hu; discriminate).
  pose proof (get_opt_defined _ _ Hu') as Ht.
  assert (Ht' : get_opt (vestingAndUnlocking d) "tables" <> VUndefined)
    by (intros E; rewrite E in Ht; discriminate).
  pose proof (get_opt_defined _ _ Ht') as Hv.
  rewrite (get_ok _ _ Hv). simpl. rewrite (get_ok _ _ Ht). simpl.
  now rewrite (get_ok _ _ Hu).
Qed.

Lemma join_strings (sep : string) (strs : list string) :
  join sep (map VString strs) = Ok (String.concat sep strs).
Proof.
  induction strs as [|x rest IH]; simpl; [reflexivity |].
  destruct rest as [|y rest]; [reflexivity |].
  simpl in IH |- *. rewrite IH. reflexivity.
Qed.

(** The unlocking rules in closed form, once the vesting rules have
    passed. *)
Lemma validate_unlocking_closed (activeServices : list string) (d : ProjectData) :
  loaded d ->
  In "unlocking" activeServices ->
  unlocking_rows d <> [] ->
  (In "vesting" activeServices -> pool_rows d <> [] /\ agent_rows d <> []) ->
  Forall (fun row => nullish row = false) (agent_rows d) ->
  Forall (fun row => nullish row = false) (round_rows d) ->
  Forall (fun row => nullish row = false) (unlocking_rows d) ->
  Staged.validateServiceData activeServices d =
  if (length (agent_rows d) =? 0)%nat && (length (round_rows d) =? 0)%nat then
    Throw UnlockingDataError
  else
    let failing := failing_values (agent_rows d) (round_rows d) (unlocking_rows d) in
    if (0 <? length failing)%nat then
      listed <- join ", " failing ;; Throw (InvalidAgentReferenceError listed)
    else Ok tt.
Proof.
  intros (_ & _ & _ & Ha & Hr & _) Hu Hrows Hvest Hna Hnr Hnu.
  apply truthy_not_nullish in Ha, Hr.
  apply includes_string_In in Hu.
  unfold Staged.validateServiceData.
  assert (Hfirst :
    (if includes_string activeServices "vesting" then
       if (length (getRowsArray (Staged.rows_at (pools d) "tables" "pools")) =? 0)%nat
       then Throw (Error "Vesting requires pool data")
       else if (length (getRowsArray (get_opt (agents d) "rows")) =? 0)%nat
            then Throw (Error "Vesting requires agent data")
            else Ok tt
     else Ok tt) = Ok tt).
  { destruct (includes_string activeServices "vesting") eqn:Hv; [| reflexivity].
    apply includes_string_In in Hv. destruct (Hvest Hv) as [Hp Hag].
    unfold pool_rows, agent_rows in Hp, Hag.
    destruct (getRowsArray (Staged.rows_at (pools d) "tables" "pools")); [congruence |].
    destruct (getRowsArray (get_opt (agents d) "rows")); [congruence | reflexivity]. }
  rewrite Hfirst. simpl. rewrite Hu.
  rewrite (get_ok _ _ Ha), (get_ok _ _ Hr). simpl.
  fold (agent_rows d) (round_rows d).
  destruct ((length (agent_rows d) =? 0)%nat && (length (round_rows d) =? 0)%nat);
    [reflexivity |].
  rewrite (array_map_get "agentName" _ Hna). simpl.
  rewrite (array_map_get "source_name" _ Hnr). simpl.
  pose proof (unlocking_rows_readable d Hrows) as Hread.
  destruct (get (vestingAndUnlocking d) "tables") as [t | e]; simpl in Hread |- *;
    [| discriminate].
  destruct (get t "unlocking") as [u | e]; simpl in Hread |- *; [| discriminate].
  rewrite Hread. simpl. fold (unlocking_rows d).
  rewrite (array_filter_pure _
             (fun row => negb (resolves (agent_rows d) (round_rows d) row))).
  2:{ intros row Hin. rewrite Forall_forall in Hnu. apply unresolved_pure. auto. }
  simpl. rewrite array_map_get by (apply Forall_filter; exact Hnu). simpl.
  fold (failing_values (agent_rows d) (round_rows d) (unlocking_rows d)).
  reflexivity.
Qed.


(** C5, as the code has it.  Take a loaded configuration in which
    ['unlocking'] is active, the vesting rules do not fail first (['vesting']
    is inactive, or there are both pool rows and agent rows), and no agent,
    investment-round or unlocking row is [null].  The validation throws
    "Unlocking requires agent or investment round data" exactly when there
    is neither an agent row nor an investment-round row.  Otherwise a row
    resolves through [agentName] when its type is ['agent'], through
    [source_name] when it is ['investmentRound'], and never for any other
    type; the validation passes exactly when every row resolves, and when
    some row does not it throws the invalid-agents error listing the
    [agent_optionValue] of all such rows, in row order with duplicates,
    joined by a comma and a space. *)
Theorem C5_unlocking_rules (d : ProjectData) (activeServices : list string)
    (Hloaded : loaded d)
    (Hactive : Staged.determineActiveServices d = Ok activeServices)
    (Hunlocking : In "unlocking" activeServices)
    (Hvesting : In "vesting" activeServices -> pool_rows d <> [] /\ agent_rows d <> [])
    (Hagents : Forall (fun row => nullish row = false) (agent_rows d))
    (Hrounds : Forall (fun row => nullish row = false) (round_rows d))
    (Hrows : Forall (fun row => nullish row = false) (unlocking_rows d)) :
  let failing := failing_values (agent_rows d) (round_rows d) (unlocking_rows d) in
  (Staged.validateServiceData activeServices d = Throw UnlockingDataError <->
   agent_rows d = [] /\ round_rows d = []) /\
  (~ (agent_rows d = [] /\ round_rows d = []) ->
   (Staged.validateServiceData activeServices d = Ok tt <-> failing = []) /\
   (failing <> [] ->
    Staged.validateServiceData activeServices d =
    (listed <- join ", " failing ;; Throw (InvalidAgentReferenceError listed))) /\
   (forall strs, failing = map VString strs -> strs <> [] ->
    Staged.validateServiceData activeServices d =
    Throw (InvalidAgentReferenceError (String.concat ", " strs)))).
Proof.
  intros failing.
  destruct (determineActiveServices_spec _ _ Hactive) as (_ & _ & _ & Hu & _).
  pose proof (validate_unlocking_closed activeServices d Hloaded Hunlocking
                (proj1 Hu Hunlocking) Hvesting Hagents Hrounds Hrows) as Hclosed.
  fold failing in Hclosed. cbv zeta in Hclosed. rewrite Hclosed. clear Hclosed.
  assert (Hjoin : forall r : result unit,
             (listed <- join ", " failing ;; Throw (InvalidAgentReferenceError listed)) = r ->
             r <> Throw UnlockingDataError /\ r <> Ok tt).
  { intros r <-. destruct (join ", " failing) as [listed | e] eqn:Hj; simpl.
    - split; discriminate.
    - apply type_errors_only_join in Hj. subst e. split; discriminate. }
  assert (Hboth : (length (agent_rows d) =? 0)%nat && (length (round_rows d) =? 0)%nat = true <->
                  agent_rows d = [] /\ round_rows d = []).
  { rewrite andb_true_iff, !empty_length. reflexivity. }
  destruct ((length (agent_rows d) =? 0)%nat && (length (round_rows d) =? 0)%nat).
  - split; [split; [intros _; now apply Hboth | reflexivity] |].
    intros Hne. contradiction Hne. now apply Hboth.
  - assert (Hnb : ~ (agent_rows d = [] /\ round_rows d = []))
      by (intros E; apply Hboth in E; discriminate).
    destruct failing as [|v rest] eqn:Hf.
    + simpl. split; [split; [discriminate | intros E; contradiction] |].
      intros _. split; [split; reflexivity |].
      split; [congruence |].
      intros [|x strs]; [congruence | discriminate].
    + change (0 <? length (v :: rest))%nat with true. cbv iota.
      destruct (Hjoin _ eq_refl) as [Hnu Hnok].
      split; [split; [intros E; contradiction | intros E; contradiction] |].
      intros _. split; [split; [intros E; contradiction | discriminate] |].
      split; [reflexivity |].
      intros strs Hs _. rewrite Hs, join_strings. reflexivity.
Qed.

(** C10.  When there are pool rows but none of them activates ['pools'], an
    active ['vesting'] does not fail on "Vesting requires pool data", which
    looks only at the presence of rows: ['pools'] is inactive, [hasPools] is
    false, the vesting contract is selected, and with agent rows present and
    ['unlocking'] inactive the validation passes. *)
Theorem C10_vesting_without_active_pools (d : ProjectData) (activeServices : list string)
    (Hactive : Staged.determineActiveServices d = Ok activeServices)
    (Hvesting : In "vesting" activeServices)
    (Hrows : pool_rows d <> [])
    (Hnone : forall row, In row (pool_rows d) -> ~ activates row) :
  Staged.validateServiceData activeServices d <>
    Throw (VestingDataError "Vesting requires pool data") /\
  ~ In "pools" activeServices /\
  get_opt (context_of d activeServices) "hasPools" = VBool false /\
  In "Vesting.sol" (map output (Staged.templatesToGenerate activeServices)) /\
  (agent_rows d <> [] -> ~ In "unlocking" activeServices ->
   Staged.validateServiceData activeServices d = Ok tt).
Proof.
  destruct (determineActiveServices_spec _ _ Hactive) as (b & Hsome & _ & _ & Hp & _).
  assert (Hpools : ~ In "pools" activeServices).
  { rewrite Hp. intros ->. destruct (array_some_true _ _ Hsome) as [row [Hin Hrow]].
    apply positive_amount_true in Hrow. exact (Hnone row Hin Hrow). }
  split; [| split; [exact Hpools | split; [| split]]].
  - intros E.
    apply (validateServiceData_throws
             (fun e => e <> VestingDataError "Vesting requires pool data")) in E;
      [now contradiction E | intros; try discriminate ..].
    contradiction.
  - simpl. destruct (includes_string activeServices "pools") eqn:E; [| reflexivity].
    apply includes_string_In in E. contradiction.
  - apply in_map_iff.
    exists {| input := "Vesting.sol.hbs"; output := "Vesting.sol"; required := false;
              service := Service "vesting" |}.
    split; [reflexivity |]. apply filter_In. split; [simpl; auto |].
    apply selects_spec. right. exists "vesting". simpl. auto.
  - intros Hagents Hunl.
    pose proof (proj2 (includes_string_In _ _) Hvesting) as Hv.
    unfold Staged.validateServiceData. rewrite Hv.
    fold (pool_rows d) (agent_rows d).
    destruct (pool_rows d); [congruence |].
    destruct (agent_rows d); [congruence |]. simpl.
    destruct (includes_string activeServices "unlocking") eqn:E; [| reflexivity].
    apply includes_string_In in E. contradiction.
Qed.


(** *** The defaulting of the sections *)

(** C8, as the code has it.  For a parsed document other than [null], the
    loader takes each of the six sections on its own: a section that is
    absent, or whose value is falsy ([null], [false], zero, the empty
    string), becomes its placeholder, and a section whose value is truthy,
    so any object or array however incomplete, is used as it is, never
    merged with the placeholder.  The placeholder of [pools] is
    [{ tables: { pools: { rows: {} } } }]. *)
Theorem C8_section_defaulting (jsonData : value) (Hdocument : nullish jsonData = false) :
  exists d,
    sections_of jsonData = Ok d /\
    (forall name placeholder field,
        In (name, placeholder, field) section_defaults ->
        (get_opt jsonData name = VUndefined -> field d = placeholder) /\
        (truthy (get_opt jsonData name) = false -> field d = placeholder) /\
        (truthy (get_opt jsonData name) = true -> field d = get_opt jsonData name) /\
        (forall props, get_opt jsonData name = VObject props -> field d = VObject props) /\
        (forall elems, get_opt jsonData name = VArray elems -> field d = VArray elems)) /\
    default_pools =
      VObject [("tables", VObject [("pools", VObject [("rows", VObject [])])])].
Proof.
  eexists. split; [apply sections_of_ok; exact Hdocument |].
  split; [| reflexivity].
  intros name placeholder field Hin.
  assert (Hfield : field
            {| initialData := or_else (get_opt jsonData "initialData") (VObject []);
               vestingAndUnlocking :=
                 or_else (get_opt jsonData "vestingAndUnlocking") default_vestingAndUnlocking;
               pools := or_else (get_opt jsonData "pools") default_pools;
               agents := or_else (get_opt jsonData "agents") empty_rows;
               investmentRounds := or_else (get_opt jsonData "investmentRounds") empty_rows;
               projectServices :=
                 or_else (get_opt jsonData "projectServices") default_projectServices |}
          = or_else (get_opt jsonData name) placeholder).
  { simpl in Hin.
    repeat (destruct Hin as [[= <- <- <-] | Hin]; [reflexivity |]). contradiction. }
  rewrite Hfield. unfold or_else.
  repeat split.
  - intros ->. reflexivity.
  - intros ->. reflexivity.
  - intros ->. reflexivity.
  - intros props ->. reflexivity.
  - intros elems ->. reflexivity.
Qed.

(** *** The two scripts *)

Lemma Mono_load_agrees (parsed : string + value) (d : ProjectData) :
  Staged.loadProjectData "tokenomicsData.json" parsed = Ok d -> Mono.load parsed = Ok d.
Proof.
  destruct parsed as [m | jsonData]; [discriminate |].
  destruct (sections_of jsonData) as [d' | e] eqn:Hs.
  - rewrite (Staged_load_after_sections _ _ _ Hs), (Mono_load_after_sections _ _ Hs).
    destruct (_ && _); [auto | discriminate].
  - unfold Staged.loadProjectData. rewrite Hs. discriminate.
Qed.

Lemma falsy_rows (v : value) : truthy v = false -> getRowsArray v = [].
Proof. unfold getRowsArray. intros ->. reflexivity. Qed.

Lemma falsy_get_opt (v : value) (k : string) : truthy v = false -> get_opt v k = VUndefined.
Proof. destruct v; simpl; try reflexivity; discriminate. Qed.

Lemma guarded_rows_agrees (section : value) (tables name : string) :
  nullish section = false ->
  nullish (get_opt section tables) = false ->
  Mono.guarded_rows section tables name =
  Ok (getRowsArray (Staged.rows_at section tables name)).
Proof.
  intros Hs Ht. unfold Mono.guarded_rows, Staged.rows_at.
  rewrite !(get_ok _ _ Hs). simpl. rewrite !(get_ok _ _ Ht). simpl.
  destruct (truthy (get_opt (get_opt section tables) name)) eqn:Htable.
  - rewrite (get_ok _ _ (truthy_not_nullish _ Htable)). reflexivity.
  - simpl. rewrite (falsy_rows _ Htable), (falsy_get_opt _ "rows" Htable). reflexivity.
Qed.

Lemma Mono_rows_agree (d : ProjectData) :
  loaded d -> tables_present d -> Mono.rows_of d = Ok (rows_record d).
Proof.
  intros (_ & Hv & Hp & _ & _ & Hs) (Hvt & Hpt & Hst).
  apply truthy_not_nullish in Hv, Hp, Hs.
  unfold Mono.rows_of.
  rewrite !(guarded_rows_agrees _ _ _ Hv Hvt), (guarded_rows_agrees _ _ _ Hp Hpt),
          !(guarded_rows_agrees _ _ _ Hs Hst).
  reflexivity.
Qed.

Lemma Mono_active_agrees (d : ProjectData) :
  Mono.activeServices_of (rows_record d) = Staged.determineActiveServices d.
Proof. reflexivity. Qed.

Lemma Mono_validate_agrees (activeServices : list string) (d : ProjectData) :
  loaded d ->
  (In "unlocking" activeServices -> unlocking_rows d <> []) ->
  Mono.validate activeServices d (rows_record d) =
  Staged.validateServiceData activeServices d.
Proof.
  intros (_ & _ & _ & Ha & Hr & _) Hunl.
  apply truthy_not_nullish in Ha, Hr.
  unfold Mono.validate, Staged.validateServiceData.
  rewrite !(get_ok _ _ Ha), (get_ok _ _ Hr). simpl.
  f_equal.
  destruct (includes_string activeServices "unlocking") eqn:Hu; [| reflexivity].
  apply includes_string_In in Hu. specialize (Hunl Hu).
  destruct (_ && _); [reflexivity |].
  destruct (array_map _ _) as [va | e]; simpl; [| reflexivity].
  destruct (array_map _ _) as [vr | e]; simpl; [| reflexivity].
  pose proof (unlocking_rows_readable d Hunl) as Hread.
  destruct (get (vestingAndUnlocking d) "tables") as [t | e]; simpl in Hread |- *;
    [| discriminate].
  destruct (get t "unlocking") as [u | e]; simpl in Hread |- *; [| discriminate].
  rewrite Hread. reflexivity.
Qed.

Lemma Mono_infer_and_validate_agrees (d : ProjectData) :
  loaded d -> tables_present d ->
  Mono.infer_and_validate d =
  (activeServices <- Staged.determineActiveServices d ;;
   Staged.validateServiceData activeServices d ;;;
   Ok activeServices).
Proof.
  intros Hl Ht. unfold Mono.infer_and_validate.
  rewrite (Mono_rows_agree d Hl Ht). simpl. rewrite Mono_active_agrees.
  destruct (Staged.determineActiveServices d) as [act | e] eqn:Hact; [| reflexivity].
  simpl. rewrite Mono_validate_agrees; [reflexivity | exact Hl |].
  intros Hu. destruct (determineActiveServices_spec _ _ Hact) as (_ & _ & _ & Hiff & _).
  now apply Hiff.
Qed.

(** C9, as the code has it.  On every configuration that loads and whose
    table-holding sections do hold their tables, the two scripts settle the
    same thing: the same active services, the same validation outcome (the
    same error, if any), the same templates and the same template context.
    They also fail on the same inputs while loading, the staged script with
    its own wording of the two loading errors. *)
Theorem C9_scripts_agree (parsed : string + value) :
  (forall d,
      Staged.loadProjectData "tokenomicsData.json" parsed = Ok d ->
      tables_present d ->
      Mono_plan parsed = Staged_plan parsed) /\
  (forall message,
      parsed = inl message ->
      Staged_plan parsed = Throw (ConfigLoadError "tokenomicsData.json" message) /\
      Mono_plan parsed = Throw (Mono_ConfigLoadError message)) /\
  (missing_required_field parsed ->
   Staged_plan parsed = Throw MissingRequiredFieldError /\
   Mono_plan parsed = Throw Mono_MissingRequiredFieldError) /\
  (forall jsonData,
      parsed = inr jsonData -> nullish jsonData = true ->
      Staged_plan parsed = Throw TypeError /\ Mono_plan parsed = Throw TypeError).
Proof.
  unfold Staged_plan, Mono_plan, Staged.load_and_validate.
  split; [| split; [| split]].
  - intros d Hload Htables.
    rewrite (Mono_load_agrees _ _ Hload), Hload. simpl.
    rewrite (Mono_infer_and_validate_agrees d (Staged_load_loaded _ _ _ Hload) Htables).
    destruct (Staged.determineActiveServices d) as [act | e]; simpl; [| reflexivity].
    destruct (Staged.validateServiceData act d) as [[] | e]; reflexivity.
  - intros message ->. split; reflexivity.
  - intros (jsonData & d & -> & Hs & Hmiss).
    rewrite (Staged_load_after_sections _ _ _ Hs), (Mono_load_after_sections _ _ Hs).
    destruct Hmiss as [-> | ->]; rewrite ?andb_false_r; split; reflexivity.
  - intros jsonData -> Hnull. unfold Staged.loadProjectData, Mono.load.
    rewrite (sections_of_throws _ Hnull). split; reflexivity.
Qed.

End Properties.

(** ** The properties on the sample configurations *)

(** The amounts ["0"] and [-5] do not activate ['pools']; ["3"] does. *)
Lemma pool_amount_examples :
  Staged.determineActiveServices (H := SampleHost.host) Samples.idle_pools = Ok [] /\
  Staged.determineActiveServices (H := SampleHost.host) Samples.three_pools = Ok ["pools"].
Proof. split; vm_compute; reflexivity. Qed.

Lemma C1_unlocking_only_outputs_witness :
  Staged.load_and_validate (H := SampleHost.host) (inr Samples.unlocking_only) =
    Ok (Samples.unlocking_only_loaded, ["unlocking"]) /\
  map output (Staged.templatesToGenerate ["unlocking"]) =
  ["Token.sol"; "PoolManager.sol"; "IToken.sol"; "Unlocking.sol"; "IPoolManager.sol"].
Proof.
  assert (Hvalid : Staged.load_and_validate (H := SampleHost.host)
                     (inr Samples.unlocking_only) =
                   Ok (Samples.unlocking_only_loaded, ["unlocking"]))
    by (vm_compute; reflexivity).
  split; [exact Hvalid |].
  apply (C1_unlocking_only_outputs (H := SampleHost.host) _ _ _ Hvalid).
  intros s. simpl. split.
  - intros [<- | []]. reflexivity.
  - intros ->. left. reflexivity.
Defined.

(** C1 as stated fails: on a configuration that passes validation with
    ['unlocking'] alone active, the outputs do not come in the order
    Token.sol, IToken.sol, PoolManager.sol, IPoolManager.sol, Unlocking.sol. *)
Lemma C1_claimed_order_counterexample :
  Staged.load_and_validate (H := SampleHost.host) (inr Samples.unlocking_only) =
    Ok (Samples.unlocking_only_loaded, ["unlocking"]) /\
  map output (Staged.templatesToGenerate ["unlocking"]) <>
  ["Token.sol"; "IToken.sol"; "PoolManager.sol"; "IPoolManager.sol"; "Unlocking.sol"].
Proof. split; [vm_compute; reflexivity | vm_compute; discriminate]. Qed.

Lemma C2_failure_writes_nothing_witness :
  fails_before_output (H := SampleHost.host) (inr Samples.vesting_alone_document)
    (VestingDataError "Vesting requires pool data") /\
  Staged.main (H := SampleHost.host) (inr Samples.vesting_alone_document) Samples.disk =
  (Throw (VestingDataError "Vesting requires pool data"), Samples.disk).
Proof.
  assert (Hfail : fails_before_output (H := SampleHost.host)
                    (inr Samples.vesting_alone_document)
                    (VestingDataError "Vesting requires pool data")).
  { apply (fails_validation _ _ Samples.vesting_alone ["vesting"]);
      vm_compute; reflexivity. }
  split; [exact Hfail |].
  exact (proj1 (C2_failure_writes_nothing (H := SampleHost.host) _ Samples.disk) _ Hfail).
Defined.

Lemma C3_required_fields_witness :
  sections_of (VObject []) = Ok Samples.all_placeholders /\
  Staged.loadProjectData "tokenomicsData.json" (inr (VObject [])) =
  Throw MissingRequiredFieldError.
Proof.
  assert (Hsections : sections_of (VObject []) = Ok Samples.all_placeholders)
    by reflexivity.
  split; [exact Hsections |].
  apply (proj1 (C3_required_fields "tokenomicsData.json" _ _ Hsections)).
  left. reflexivity.
Defined.

Lemma C4_pools_activation_witness :
  Forall (fun row => nullish row = false /\ primitive (get_opt row "amount") = true)
         (pool_rows Samples.three_pools) /\
  (exists activeServices,
      Staged.determineActiveServices (H := SampleHost.host) Samples.three_pools =
      Ok activeServices) /\
  (In "pools" ["pools"] <->
   exists row, In row (pool_rows Samples.three_pools) /\
               activates (H := SampleHost.host) row).
Proof.
  assert (Hrows : Forall (fun row => nullish row = false /\
                                     primitive (get_opt row "amount") = true)
                         (pool_rows Samples.three_pools))
    by (vm_compute; repeat constructor).
  split; [exact Hrows |]. split.
  - exact (proj1 (proj2 (C4_pools_activation (H := SampleHost.host) Samples.three_pools))
                 Hrows).
  - apply (proj1 (C4_pools_activation (H := SampleHost.host) Samples.three_pools)).
    vm_compute. reflexivity.
Defined.

(** C4 as stated fails.  A [null] pool row makes the inference throw, also
    when a later row has the amount ["3"]; so does a row whose amount is an
    object that owns a [toString] entry. *)
Lemma C4_pools_activation_counterexample :
  (exists row, In row (pool_rows Samples.null_pool_row) /\
               activates (H := SampleHost.host) row) /\
  Staged.determineActiveServices (H := SampleHost.host) Samples.null_pool_row =
    Throw TypeError /\
  Staged.determineActiveServices (H := SampleHost.host) Samples.object_amount =
    Throw TypeError.
Proof.
  split; [| split; vm_compute; reflexivity].
  exists (VObject [("amount", VString "3")]). split.
  - vm_compute. auto.
  - split; [reflexivity |]. eexists. split; vm_compute; reflexivity.
Qed.

Lemma C5_unlocking_rules_witness :
  Staged.determineActiveServices (H := SampleHost.host) Samples.dangling_agents =
    Ok ["unlocking"] /\
  Staged.validateServiceData (H := SampleHost.host) ["unlocking"] Samples.dangling_agents =
  Throw (InvalidAgentReferenceError "bob, bob").
Proof.
  assert (Hactive : Staged.determineActiveServices (H := SampleHost.host)
                      Samples.dangling_agents = Ok ["unlocking"])
    by (vm_compute; reflexivity).
  split; [exact Hactive |].
  assert (Hloaded : loaded Samples.dangling_agents)
    by (vm_compute; repeat split; reflexivity).
  assert (Hunlocking : In "unlocking" ["unlocking"]) by (simpl; auto).
  assert (Hvesting : In "vesting" ["unlocking"] ->
                     pool_rows Samples.dangling_agents <> [] /\
                     agent_rows Samples.dangling_agents <> [])
    by (simpl; intros [E | []]; discriminate E).
  assert (Hagents : Forall (fun row => nullish row = false)
                           (agent_rows Samples.dangling_agents))
    by (vm_compute; repeat constructor).
  assert (Hrounds : Forall (fun row => nullish row = false)
                           (round_rows Samples.dangling_agents))
    by (vm_compute; repeat constructor).
  assert (Hrows : Forall (fun row => nullish row = false)
                         (unlocking_rows Samples.dangling_agents))
    by (vm_compute; repeat constructor).
  destruct (C5_unlocking_rules (H := SampleHost.host) _ _ Hloaded Hactive Hunlocking
              Hvesting Hagents Hrounds Hrows) as [_ Hlisted].
  assert (Hsome : ~ (agent_rows Samples.dangling_agents = [] /\
                     round_rows Samples.dangling_agents = []))
    by (vm_compute; intros [E _]; discriminate E).
  destruct (Hlisted Hsome) as (_ & _ & Hstrings).
  apply (Hstrings ["bob"; "bob"]); [vm_compute; reflexivity | discriminate].
Defined.

(** C5 as stated fails.  With ['vesting'] active too and neither agents nor
    investment rounds, the error is the vesting one, not the unlocking one;
    a [null] unlocking row ends the validation with a [TypeError]; and so
    does a row that fails to resolve and whose [agent_optionValue] is an
    object that owns a [toString] entry, which [join] cannot print. *)
Lemma C5_unlocking_rules_counterexample :
  Staged.determineActiveServices (H := SampleHost.host)
    Samples.vesting_and_unlocking_no_agents = Ok ["vesting"; "unlocking"; "pools"] /\
  agent_rows Samples.vesting_and_unlocking_no_agents = [] /\
  round_rows Samples.vesting_and_unlocking_no_agents = [] /\
  Staged.validateServiceData (H := SampleHost.host) ["vesting"; "unlocking"; "pools"]
    Samples.vesting_and_unlocking_no_agents =
    Throw (VestingDataError "Vesting requires agent data") /\
  Staged.validateServiceData (H := SampleHost.host) ["vesting"; "unlocking"; "pools"]
    Samples.vesting_and_unlocking_no_agents <> Throw UnlockingDataError /\
  Staged.determineActiveServices (H := SampleHost.host) Samples.null_unlocking_row =
    Ok ["unlocking"] /\
  Staged.validateServiceData (H := SampleHost.host) ["unlocking"]
    Samples.null_unlocking_row = Throw TypeError /\
  Staged.determineActiveServices (H := SampleHost.host) Samples.object_agent_value =
    Ok ["unlocking"] /\
  failing_values (agent_rows Samples.object_agent_value)
                 (round_rows Samples.object_agent_value)
                 (unlocking_rows Samples.object_agent_value) =
    [VObject [("toString", Samples.num 1)]] /\
  Staged.validateServiceData (H := SampleHost.host) ["unlocking"]
    Samples.object_agent_value = Throw TypeError.
Proof.
  repeat split; try (vm_compute; reflexivity).
  vm_compute. discriminate.
Qed.

Lemma C6_vesting_rules_witness :
  In "vesting" ["vesting"; "pools"] /\
  pool_rows Samples.vesting_with_pool <> [] /\
  agent_rows Samples.vesting_with_pool = [] /\
  Staged.validateServiceData (H := SampleHost.host) ["vesting"; "pools"]
    Samples.vesting_with_pool =
  Throw (VestingDataError "Vesting requires agent data").
Proof.
  assert (Hvesting : In "vesting" ["vesting"; "pools"]) by (simpl; auto).
  assert (Hpools : pool_rows Samples.vesting_with_pool <> [])
    by (vm_compute; discriminate).
  assert (Hagents : agent_rows Samples.vesting_with_pool = []) by reflexivity.
  split; [exact Hvesting |]. split; [exact Hpools |]. split; [exact Hagents |].
  exact (proj2 (C6_vesting_rules (H := SampleHost.host) _ Samples.vesting_with_pool Hvesting)
               Hpools Hagents).
Defined.

(** C6 as stated fails in its second half: with no pool row and no agent
    row, the error is "Vesting requires pool data", not "Vesting requires
    agent data". *)
Lemma C6_vesting_rules_counterexample :
  Staged.determineActiveServices (H := SampleHost.host) Samples.vesting_alone =
    Ok ["vesting"] /\
  agent_rows Samples.vesting_alone = [] /\
  Staged.validateServiceData (H := SampleHost.host) ["vesting"] Samples.vesting_alone =
    Throw (VestingDataError "Vesting requires pool data") /\
  Staged.validateServiceData (H := SampleHost.host) ["vesting"] Samples.vesting_alone <>
    Throw (VestingDataError "Vesting requires agent data").
Proof.
  repeat split; try (vm_compute; reflexivity).
  vm_compute. discriminate.
Qed.

Lemma C8_section_defaulting_witness :
  exists d,
    sections_of Samples.unlocking_only = Ok d /\
    pools d = default_pools /\
    agents d = get_opt Samples.unlocking_only "agents".
Proof.
  destruct (C8_section_defaulting Samples.unlocking_only eq_refl) as (d & Hs & Hall & _).
  exists d. split; [exact Hs |]. split.
  - destruct (Hall "pools" default_pools pools) as (Habsent & _); [simpl; auto |].
    apply Habsent. reflexivity.
  - destruct (Hall "agents" empty_rows agents) as (_ & _ & Hkept & _); [simpl; auto 6 |].
    apply Hkept. reflexivity.
Defined.

(** C8 as stated fails.  A [pools] section that is in the document with the
    value [null] is not used as it is but replaced by the placeholder; and
    for the document [null] the loader replaces nothing, it throws. *)
Lemma C8_section_defaulting_counterexample :
  match Samples.null_pools with
  | VObject props => own_property "pools" props = Some VNull
  | _ => False
  end /\
  (exists d, sections_of Samples.null_pools = Ok d /\
             pools d = default_pools /\ pools d <> VNull) /\
  sections_of VNull = Throw TypeError.
Proof.
  split; [reflexivity |]. split; [| reflexivity].
  eexists. split; [reflexivity |]. split; [reflexivity | discriminate].
Qed.

Lemma C9_scripts_agree_witness :
  Staged.loadProjectData "tokenomicsData.json"
    (inr Samples.unlocking_only) = Ok Samples.unlocking_only_loaded /\
  tables_present Samples.unlocking_only_loaded /\
  Mono_plan (H := SampleHost.host) (inr Samples.unlocking_only) =
  Staged_plan (H := SampleHost.host) (inr Samples.unlocking_only).
Proof.
  assert (Hload : Staged.loadProjectData "tokenomicsData.json"
                    (inr Samples.unlocking_only) = Ok Samples.unlocking_only_loaded)
    by (vm_compute; reflexivity).
  assert (Htables : tables_present Samples.unlocking_only_loaded)
    by (vm_compute; repeat split; reflexivity).
  split; [exact Hload |]. split; [exact Htables |].
  exact (proj1 (C9_scripts_agree (H := SampleHost.host) (inr Samples.unlocking_only))
               _ Hload Htables).
Defined.

(** C9 as stated fails.  On a document whose [pools] section has no
    [tables], the staged script finds no active service and writes the two
    required contracts; the one-file script throws a [TypeError] at
    [poolsData.tables.pools].  And on the empty document the two scripts
    throw missing-field errors with different messages. *)
Lemma C9_scripts_agree_counterexample :
  (exists context,
      Staged_plan (H := SampleHost.host) (inr Samples.pools_without_tables) =
      Ok ([], filter required ALL_TEMPLATES, context)) /\
  Mono_plan (H := SampleHost.host) (inr Samples.pools_without_tables) = Throw TypeError /\
  fst (Staged.main (H := SampleHost.host) (inr Samples.pools_without_tables) Samples.disk) =
    Ok tt /\
  fst (Mono.script (H := SampleHost.host) (inr Samples.pools_without_tables) Samples.disk) =
    Throw TypeError /\
  Staged_plan (H := SampleHost.host) (inr (VObject [])) = Throw MissingRequiredFieldError /\
  Mono_plan (H := SampleHost.host) (inr (VObject [])) =
    Throw Mono_MissingRequiredFieldError /\
  MissingRequiredFieldError <> Mono_MissingRequiredFieldError.
Proof.
  split; [eexists; vm_compute; reflexivity |].
  repeat split; try (vm_compute; reflexivity).
  discriminate.
Qed.

Lemma C10_vesting_without_active_pools_witness :
  Staged.load_and_validate (H := SampleHost.host) (inr Samples.vesting_idle_pool_document) =
    Ok (Samples.vesting_idle_pool, ["vesting"]) /\
  pool_rows Samples.vesting_idle_pool <> [] /\
  ~ In "pools" ["vesting"] /\
  get_opt (context_of Samples.vesting_idle_pool ["vesting"]) "hasPools" = VBool false /\
  In "Vesting.sol" (map output (Staged.templatesToGenerate ["vesting"])) /\
  fst (Staged.main (H := SampleHost.host) (inr Samples.vesting_idle_pool_document)
         Samples.disk) = Ok tt.
Proof.
  assert (Hactive : Staged.determineActiveServices (H := SampleHost.host)
                      Samples.vesting_idle_pool = Ok ["vesting"])
    by (vm_compute; reflexivity).
  assert (Hvesting : In "vesting" ["vesting"]) by (simpl; auto).
  assert (Hrows : pool_rows Samples.vesting_idle_pool <> [])
    by (vm_compute; discriminate).
  assert (Hnone : forall row, In row (pool_rows Samples.vesting_idle_pool) ->
                              ~ activates (H := SampleHost.host) row).
  { intros row [<- | []] [_ [n [Hn Hg]]].
    vm_compute in Hn. injection Hn as <-. vm_compute in Hg. discriminate Hg. }
  destruct (C10_vesting_without_active_pools (H := SampleHost.host) _ _
              Hactive Hvesting Hrows Hnone) as (_ & Hpools & Hflag & Hselected & _).
  split; [vm_compute; reflexivity |].
  split; [exact Hrows |]. split; [exact Hpools |]. split; [exact Hflag |].
  split; [exact Hselected | vm_compute; reflexivity].
Defined.

(** ** Further properties of the scripts *)

Section Further.
Context `{Host}.

(** *** The list of active services *)

Ltac subseq_by_heads :=
  repeat first [ apply subseq_nil | apply subseq_keep | apply subseq_skip ].

(** X1.  The inferred list of active services names each service at most
    once and in the fixed order vesting, unlocking, pools, staking,
    farming. *)
Theorem active_services_in_order (d : ProjectData) (activeServices : list string)
    (Hactive : Staged.determineActiveServices d = Ok activeServices) :
  subseq activeServices possibleServices /\ NoDup activeServices.
Proof.
  revert Hactive. unfold Staged.determineActiveServices.
  destruct (array_some positive_amount _) as [somePool | e]; [| discriminate].
  simpl. intros [= <-]. unfold push_if, possibleServices.
  repeat match goal with
         | |- context [if ?c then _ else _] => destruct c
         end; simpl; (split; [subseq_by_heads |]);
    repeat (constructor; [simpl; intuition discriminate |]); constructor.
Qed.

Lemma getRowsArray_holds_rows (rows : value) :
  getRowsArray rows <> [] <-> holds_rows rows.
Proof.
  destruct rows as [| | b | n | s | [|x elems] | [|[k v] props]];
    unfold getRowsArray, holds_rows; simpl;
    try (destruct (negb _); simpl); split; intros Hx; try exact I;
    try contradiction; try discriminate; try (now contradiction Hx).
Qed.

(** X2.  Vesting, unlocking, staking and farming are active exactly when
    the rows field of their table is an object or an array with at least
    one entry; what the entries are does not matter, and a field that is
    absent, [null], a boolean, a number, a string or empty leaves the service
    inactive. *)
Theorem row_presence_activation (d : ProjectData) (activeServices : list string)
    (Hactive : Staged.determineActiveServices d = Ok activeServices) :
  (In "vesting" activeServices <->
   holds_rows (Staged.rows_at (vestingAndUnlocking d) "tables" "vesting")) /\
  (In "unlocking" activeServices <->
   holds_rows (Staged.rows_at (vestingAndUnlocking d) "tables" "unlocking")) /\
  (In "staking" activeServices <->
   holds_rows (Staged.rows_at (projectServices d) "serviceTables" "staking")) /\
  (In "farming" activeServices <->
   holds_rows (Staged.rows_at (projectServices d) "serviceTables" "farming")).
Proof.
  destruct (determineActiveServices_spec _ _ Hactive) as (_ & _ & Hv & Hu & _ & Hs & Hf).
  rewrite Hv, Hu, Hs, Hf.
  unfold vesting_rows, unlocking_rows, staking_rows, farming_rows.
  rewrite !getRowsArray_holds_rows. repeat split; auto.
Qed.

(** X3.  With no row in any of the five tables, no service is active, the
    validation passes, and exactly the two required templates are selected:
    the minimal project. *)
Theorem empty_tables_minimal_project (d : ProjectData)
    (Hvesting : vesting_rows d = []) (Hunlocking : unlocking_rows d = [])
    (Hpools : pool_rows d = []) (Hstaking : staking_rows d = [])
    (Hfarming : farming_rows d = []) :
  Staged.determineActiveServices d = Ok [] /\
  Staged.validateServiceData [] d = Ok tt /\
  map output (Staged.templatesToGenerate []) = ["Token.sol"; "IToken.sol"] /\
  minimal_project (Staged.templatesToGenerate []) = true.
Proof.
  split; [| repeat split].
  unfold Staged.determineActiveServices.
  fold (vesting_rows d) (unlocking_rows d) (pool_rows d) (staking_rows d) (farming_rows d).
  rewrite Hvesting, Hunlocking, Hpools, Hstaking, Hfarming. reflexivity.
Qed.

(** *** The selection *)

Lemma includes_string_iff (l l' : list string) (s : string) :
  (In s l <-> In s l') -> includes_string l s = includes_string l' s.
Proof.
  intros Hiff. destruct (includes_string l s) eqn:E, (includes_string l' s) eqn:E';
    try reflexivity.
  - apply includes_string_In, Hiff, includes_string_In in E. congruence.
  - apply includes_string_In, Hiff, includes_string_In in E'. congruence.
Qed.

Lemma includes_string_false (l : list string) (s : string) :
  includes_string l s = false <-> ~ In s l.
Proof.
  rewrite <- includes_string_In. destruct (includes_string l s); split; congruence.
Qed.

(** X4.  The selection looks at vesting, unlocking and pools only: staking,
    farming and any other name never change it.  The pool manager and its
    interface are selected together, exactly when one of the three is active,
    and the project is minimal (two templates) exactly when none is. *)
Theorem selection_depends_on_three (activeServices activeServices' : list string) :
  ((In "vesting" activeServices <-> In "vesting" activeServices') ->
   (In "unlocking" activeServices <-> In "unlocking" activeServices') ->
   (In "pools" activeServices <-> In "pools" activeServices') ->
   Staged.templatesToGenerate activeServices =
   Staged.templatesToGenerate activeServices') /\
  (In "PoolManager.sol" (map output (Staged.templatesToGenerate activeServices)) <->
   In "vesting" activeServices \/ In "unlocking" activeServices \/
   In "pools" activeServices) /\
  (In "IPoolManager.sol" (map output (Staged.templatesToGenerate activeServices)) <->
   In "PoolManager.sol" (map output (Staged.templatesToGenerate activeServices))) /\
  (minimal_project (Staged.templatesToGenerate activeServices) = true <->
   ~ In "vesting" activeServices /\ ~ In "unlocking" activeServices /\
   ~ In "pools" activeServices).
Proof.
  split.
  { intros Hv Hu Hp.
    unfold Staged.templatesToGenerate, ALL_TEMPLATES, Staged.selects; simpl.
    rewrite (includes_string_iff _ _ _ Hv), (includes_string_iff _ _ _ Hu),
            (includes_string_iff _ _ _ Hp).
    reflexivity. }
  rewrite <- !includes_string_false, <- !includes_string_In.
  unfold minimal_project, Staged.templatesToGenerate, ALL_TEMPLATES, Staged.selects; simpl.
  destruct (includes_string activeServices "vesting"),
           (includes_string activeServices "unlocking"),
           (includes_string activeServices "pools"); simpl;
    repeat split; intros; try discriminate; auto 8;
    repeat match goal with
           | Hx : _ \/ _ |- _ => destruct Hx
           | Hx : _ /\ _ |- _ => destruct Hx
           end; try discriminate; try contradiction.
Qed.

Lemma filter_subseq_mono {A : Type} (p q : A -> bool) (l : list A) :
  (forall x, In x l -> p x = true -> q x = true) -> subseq (filter p l) (filter q l).
Proof.
  induction l as [|x l IH]; simpl; intros Hpq; [constructor |].
  assert (IH' : subseq (filter p l) (filter q l)) by (apply IH; intros; apply Hpq; auto).
  destruct (p x) eqn:Hp.
  - rewrite (Hpq x (or_introl eq_refl) Hp). now constructor.
  - destruct (q x); [now constructor | exact IH'].
Qed.

(** X5.  Activating more services never takes a template away: the
    selection for a smaller set of active services is the selection for a
    larger one with some templates left out. *)
Theorem selection_grows (activeServices activeServices' : list string)
    (Hmore : forall s, In s activeServices -> In s activeServices') :
  subseq (Staged.templatesToGenerate activeServices)
         (Staged.templatesToGenerate activeServices').
Proof.
  apply filter_subseq_mono. intros t _.
  rewrite !selects_spec. intros [Hr | [s [Hs Hin]]]; [auto |].
  right. exists s. auto.
Qed.


(** *** The template context *)

Lemma flag_true (activeServices : list string) (s : string) :
  VBool (includes_string activeServices s) = VBool true <-> In s activeServices.
Proof.
  rewrite <- includes_string_In. split; [intros [= E]; exact E | intros ->; reflexivity].
Qed.

Lemma pools_active_iff (d : ProjectData) (activeServices : list string) :
  Staged.determineActiveServices d = Ok activeServices ->
  (In "pools" activeServices <-> exists row, In row (pool_rows d) /\ activates row).
Proof.
  intros Hact.
  destruct (determineActiveServices_spec _ _ Hact) as (b & Hsome & _ & _ & Hp & _).
  rewrite Hp. split.
  - intros ->. destruct (array_some_true _ _ Hsome) as [row [Hin Hrow]].
    exists row. split; [exact Hin | now apply positive_amount_true].
  - intros [row [Hin Hrow]]. destruct b; [reflexivity |].
    apply positive_amount_true in Hrow.
    rewrite (array_some_false _ _ Hsome row Hin) in Hrow. discriminate.
Qed.

(** X6.  The context handed to every template holds the six sections of the
    loaded configuration unchanged, and five flags that say what the
    inference found: [hasVesting], [hasUnlocking], [hasStaking] and
    [hasFarming] are true exactly when the table has rows, [hasPools] exactly
    when some pool row has a positive amount. *)
Theorem context_reflects_configuration (d : ProjectData) (activeServices : list string)
    (Hactive : Staged.determineActiveServices d = Ok activeServices) :
  let context := context_of d activeServices in
  (get_opt context "initialData" = initialData d /\
   get_opt context "vestingAndUnlocking" = vestingAndUnlocking d /\
   get_opt context "pools" = pools d /\
   get_opt context "agents" = agents d /\
   get_opt context "investmentRounds" = investmentRounds d /\
   get_opt context "projectServices" = projectServices d) /\
  (get_opt context "hasVesting" = VBool true <-> vesting_rows d <> []) /\
  (get_opt context "hasUnlocking" = VBool true <-> unlocking_rows d <> []) /\
  (get_opt context "hasPools" = VBool true <->
   exists row, In row (pool_rows d) /\ activates row) /\
  (get_opt context "hasStaking" = VBool true <-> staking_rows d <> []) /\
  (get_opt context "hasFarming" = VBool true <-> farming_rows d <> []).
Proof.
  intros context.
  destruct (determineActiveServices_spec _ _ Hactive) as (_ & _ & Hv & Hu & _ & Hs & Hf).
  pose proof (pools_active_iff _ _ Hactive) as Hp.
  split; [repeat split |].
  subst context. simpl.
  rewrite !flag_true. tauto.
Qed.

(** *** The errors before any output *)

Lemma type_errors_only_ToNumber (v : value) : type_errors_only (ToNumber v).
Proof.
  destruct v; simpl; try apply throws_among_Ok.
  - apply throws_among_bind; [apply (type_errors_only_ToString (VArray elems)) |].
    intros; apply throws_among_Ok.
  - apply throws_among_bind; [apply (type_errors_only_ToString (VObject props)) |].
    intros; apply throws_among_Ok.
Qed.

Lemma type_errors_only_positive_amount (row : value) :
  type_errors_only (positive_amount row).
Proof.
  unfold positive_amount.
  apply throws_among_bind; [apply type_errors_only_get |]. intros amount.
  destruct (truthy amount); [| apply throws_among_Ok].
  apply throws_among_bind; [apply type_errors_only_get |]. intros amount'.
  apply throws_among_bind; [apply type_errors_only_ToNumber |].
  intros; apply throws_among_Ok.
Qed.

Lemma type_errors_only_array_some (f : value -> result bool) (l : list value) :
  (forall x, type_errors_only (f x)) -> type_errors_only (array_some f l).
Proof.
  intros Hf. induction l as [|x rest IH]; simpl; [apply throws_among_Ok |].
  apply throws_among_bind; [apply Hf |]. intros [|]; [apply throws_among_Ok | exact IH].
Qed.

Lemma type_errors_only_determineActiveServices (d : ProjectData) :
  type_errors_only (Staged.determineActiveServices d).
Proof.
  unfold Staged.determineActiveServices.
  apply throws_among_bind.
  - apply type_errors_only_array_some. intros; apply type_errors_only_positive_amount.
  - intros; apply throws_among_Ok.
Qed.

(** X7.  Before any output the run can end with these errors and no other:
    the load error carrying the message of the read or parse failure, the
    missing-field error, the two vesting errors, the unlocking error, the
    invalid-agents error, or a [TypeError]. *)
Theorem errors_before_output (parsed : string + value) (e : exn)
    (Hthrown : Staged.load_and_validate parsed = Throw e) :
  (exists message,
      parsed = inl message /\ e = ConfigLoadError "tokenomicsData.json" message) \/
  e = MissingRequiredFieldError \/
  validation_error e.
Proof.
  revert Hthrown. unfold Staged.load_and_validate.
  destruct parsed as [message | jsonData].
  { simpl. intros [= <-]. left. exists message. auto. }
  destruct (sections_of jsonData) as [d | e'] eqn:Hs.
  - rewrite (Staged_load_after_sections _ _ _ Hs).
    destruct (_ && _); simpl; [| intros [= <-]; auto].
    destruct (Staged.determineActiveServices d) as [act | e'] eqn:Hact; simpl.
    + destruct (Staged.validateServiceData act d) as [[] | e'] eqn:Hv; simpl;
        [discriminate |].
      intros [= <-]. right; right. exact (validateServiceData_errors _ _ _ Hv).
    + intros [= <-]. apply type_errors_only_determineActiveServices in Hact.
      subst e'. right; right. unfold validation_error. auto 6.
  - unfold Staged.loadProjectData. rewrite Hs. simpl. intros [= <-].
    destruct (nullish jsonData) eqn:Hn.
    + rewrite (sections_of_throws _ Hn) in Hs. injection Hs as <-.
      right; right. unfold validation_error. auto 6.
    + rewrite (sections_of_ok _ Hn) in Hs. discriminate.
Qed.

(** *** When the validation passes *)

Lemma validate_without_unlocking (activeServices : list string) (d : ProjectData) :
  (In "vesting" activeServices -> pool_rows d <> [] /\ agent_rows d <> []) ->
  ~ In "unlocking" activeServices ->
  Staged.validateServiceData activeServices d = Ok tt.
Proof.
  intros Hvest Hunl. apply includes_string_false in Hunl.
  unfold Staged.validateServiceData. rewrite Hunl.
  destruct (includes_string activeServices "vesting") eqn:Hv; [| reflexivity].
  apply includes_string_In in Hv. destruct (Hvest Hv) as [Hp Ha].
  fold (pool_rows d) (agent_rows d).
  destruct (pool_rows d); [congruence |].
  destruct (agent_rows d); [congruence | reflexivity].
Qed.

Lemma failing_values_nil (agentRows investmentRoundRows unlockingRows : list value) :
  failing_values agentRows investmentRoundRows unlockingRows = [] <->
  forall row, In row unlockingRows -> resolves agentRows investmentRoundRows row = true.
Proof.
  unfold failing_values. induction unlockingRows as [|row rest IH]; simpl.
  - split; [intros _ row [] | reflexivity].
  - destruct (resolves agentRows investmentRoundRows row) eqn:Hr; simpl.
    + rewrite IH. split; [intros Hall x [<- | Hin]; auto | intros Hall x Hin; auto].
    + split; [discriminate |]. intros Hall.
      rewrite (Hall row (or_introl eq_refl)) in Hr. discriminate.
Qed.

(** X8.  A loaded configuration passes the cross-field validation exactly
    when an active vesting finds pool rows and agent rows, and an active
    unlocking finds an agent row or an investment-round row and every
    unlocking row resolves.  (When unlocking is active, no agent,
    investment-round or unlocking row is [null].)  Pools, staking and farming
    bring no rule of their own. *)
Theorem validation_passes_iff (d : ProjectData) (activeServices : list string)
    (Hloaded : loaded d)
    (Hactive : Staged.determineActiveServices d = Ok activeServices)
    (Hrows : In "unlocking" activeServices ->
             Forall (fun row => nullish row = false) (agent_rows d) /\
             Forall (fun row => nullish row = false) (round_rows d) /\
             Forall (fun row => nullish row = false) (unlocking_rows d)) :
  Staged.validateServiceData activeServices d = Ok tt <->
  (In "vesting" activeServices -> pool_rows d <> [] /\ agent_rows d <> []) /\
  (In "unlocking" activeServices ->
   (agent_rows d <> [] \/ round_rows d <> []) /\
   forall row, In row (unlocking_rows d) ->
               resolves (agent_rows d) (round_rows d) row = true).
Proof.
  destruct (determineActiveServices_spec _ _ Hactive) as (_ & _ & _ & Hu & _).
  assert (Hvest : (In "vesting" activeServices ->
                   pool_rows d <> [] /\ agent_rows d <> []) \/
                  exists message,
                    Staged.validateServiceData activeServices d =
                    Throw (VestingDataError message) /\
                    In "vesting" activeServices /\
                    (pool_rows d = [] \/ agent_rows d = [])).
  { destruct (includes_string activeServices "vesting") eqn:Hv.
    - apply includes_string_In in Hv.
      destruct (pool_rows d) as [|p ps] eqn:Hp.
      + right. eexists. split; [now apply validate_vesting_pools | auto].
      + destruct (agent_rows d) as [|a ags] eqn:Ha.
        * right. eexists. split; [| auto].
          apply validate_vesting_agents; [exact Hv | rewrite Hp; discriminate | exact Ha].
        * left. intros _. split; discriminate.
    - left. intros Hin. apply includes_string_In in Hin. congruence. }
  destruct Hvest as [Hvest | (message & Hthrow & Hv & Hempty)].
  2:{ rewrite Hthrow. split; [discriminate |].
      intros [Hneed _]. destruct (Hneed Hv) as [Hp Ha].
      destruct Hempty; contradiction. }
  destruct (includes_string activeServices "unlocking") eqn:Hunl.
  - apply includes_string_In in Hunl. destruct (Hrows Hunl) as (Hna & Hnr & Hnu).
    rewrite (validate_unlocking_closed _ _ Hloaded Hunl (proj1 Hu Hunl) Hvest Hna Hnr Hnu).
    cbv zeta.
    destruct (agent_rows d) as [|a ags] eqn:Ha, (round_rows d) as [|r rs] eqn:Hr;
      simpl Nat.eqb; cbv iota; simpl andb; cbv iota.
    1:{ split; [discriminate |]. intros [_ Hneed].
        destruct (Hneed Hunl) as [[E | E] _]; contradiction. }
    all: rewrite <- failing_values_nil;
      destruct (failing_values _ _ (unlocking_rows d)) as [|v rest] eqn:Hf;
      [ split; [intros _; split; [exact Hvest |];
                intros _; split; [(left; discriminate) || (right; discriminate) | reflexivity]
               | reflexivity]
      | change (0 <? List.length (v :: rest))%nat with true; cbv iota;
        split; [| intros [_ Hneed]; destruct (Hneed Hunl) as [_ E]; discriminate E];
        destruct (join ", " (v :: rest)); simpl; discriminate ].
  - apply includes_string_false in Hunl.
    rewrite (validate_without_unlocking _ _ Hvest Hunl).
    split; [| reflexivity]. intros _. split; [exact Hvest |].
    intros Hin. contradiction.
Qed.


(** *** Reading templates and writing contracts *)

Lemma append_injective (prefix a b : string) : prefix ++ a = prefix ++ b -> a = b.
Proof.
  induction prefix as [|c prefix IH]; simpl; [auto |].
  intros [= E]. auto.
Qed.

Lemma path_join_injective (dir a b : string) :
  FS.path_join dir a = FS.path_join dir b -> a = b.
Proof.
  unfold FS.path_join. intros E.
  apply append_injective in E. now apply (append_injective "/") in E.
Qed.

Lemma lookup_filter_other (p q : string) (l : list (string * string)) :
  q <> p -> FS.lookup q (filter (fun e => negb (fst e =? p)) l) = FS.lookup q l.
Proof.
  intros Hne. induction l as [|[k c] l IH]; simpl; [reflexivity |].
  destruct (k =? p) eqn:Hk; simpl.
  - apply String.eqb_eq in Hk. subst k.
    apply String.eqb_neq in Hne. now rewrite Hne.
  - rewrite IH. reflexivity.
Qed.

Lemma lookup_write (p c q : string) (fs : FS.t) :
  FS.lookup q (FS.files (FS.writeFileSync p c fs)) =
  if q =? p then Some c else FS.lookup q (FS.files fs).
Proof.
  simpl. destruct (q =? p) eqn:E; [reflexivity |].
  apply lookup_filter_other. now apply String.eqb_neq.
Qed.

Lemma existsSync_write_other (p c q : string) (fs : FS.t) :
  q <> p -> FS.existsSync q (FS.writeFileSync p c fs) = FS.existsSync q fs.
Proof.
  intros Hne. unfold FS.existsSync. rewrite lookup_write.
  apply String.eqb_neq in Hne. now rewrite Hne.
Qed.

Lemma readFileSync_write_other (p c q : string) (fs : FS.t) :
  q <> p -> FS.readFileSync q (FS.writeFileSync p c fs) = FS.readFileSync q fs.
Proof.
  intros Hne. unfold FS.readFileSync. rewrite lookup_write.
  apply String.eqb_neq in Hne. now rewrite Hne.
Qed.

Lemma render_one_write_other (templateDir : string) (context : value) (fs : FS.t)
    (t : template) (p c : string) :
  FS.path_join templateDir (input t) <> p ->
  render_one templateDir context (FS.writeFileSync p c fs) t =
  render_one templateDir context fs t.
Proof.
  intros Hne. unfold render_one.
  now rewrite existsSync_write_other, readFileSync_write_other.
Qed.

Lemma render_one_mkdir_other (templateDir : string) (context : value) (fs : FS.t)
    (t : template) (dir : string) :
  FS.path_join templateDir (input t) <> dir ->
  render_one templateDir context (FS.mkdirSync dir fs) t =
  render_one templateDir context fs t.
Proof.
  intros Hne. unfold render_one, FS.existsSync, FS.readFileSync. simpl.
  assert (E : (dir =? FS.path_join templateDir (input t)) = false)
    by (apply String.eqb_neq; congruence).
  rewrite E. reflexivity.
Qed.

Lemma render_all_same (templateDir : string) (context : value) (fs fs' : FS.t)
    (templates : list template) :
  (forall t, In t templates ->
             render_one templateDir context fs' t = render_one templateDir context fs t) ->
  render_all templateDir context fs' templates = render_all templateDir context fs templates.
Proof.
  induction templates as [|t rest IH]; simpl; intros Hsame; [reflexivity |].
  rewrite (Hsame t (or_introl eq_refl)), IH by (intros; apply Hsame; auto).
  reflexivity.
Qed.

(** The loop is its reads followed by its writes, when no template lies
    where the loop writes. *)
Lemma generate_each_factor (templateDir outputDir : string) (context : value)
    (templates : list template) (fs : FS.t) :
  (forall t name, In t templates ->
                  FS.path_join templateDir (input t) <> FS.path_join outputDir name) ->
  generate_each templateDir outputDir context templates fs =
  (snd (render_all templateDir context fs templates),
   write_all outputDir (fst (render_all templateDir context fs templates)) fs).
Proof.
  revert fs. induction templates as [|t rest IH]; intros fs Hapart; [reflexivity |].
  simpl. unfold render_one.
  destruct (negb (FS.existsSync (FS.path_join templateDir (input t)) fs)); [reflexivity |].
  destruct (FS.readFileSync (FS.path_join templateDir (input t)) fs) as [source | e];
    simpl; [| reflexivity].
  destruct (Handlebars_render source context) as [code | e]; [| reflexivity].
  rewrite IH by (intros t' name Hin; apply Hapart; right; exact Hin).
  rewrite (render_all_same templateDir context fs
             (FS.writeFileSync (FS.path_join outputDir (output t)) code fs)).
  2:{ intros t' Hin. apply render_one_write_other, Hapart. right. exact Hin. }
  destruct (render_all templateDir context fs rest) as [written outcome]. reflexivity.
Qed.

Lemma lookup_write_all (outputDir : string) (written : list (string * string))
    (fs : FS.t) (p : string) :
  FS.lookup p (FS.files (write_all outputDir written fs)) =
  overlay (under outputDir written) p (FS.lookup p (FS.files fs)).
Proof.
  revert fs. induction written as [|[name code] rest IH]; intros fs; [reflexivity |].
  simpl. rewrite IH, lookup_write. reflexivity.
Qed.

Lemma dirs_write_all (outputDir : string) (written : list (string * string)) (fs : FS.t) :
  FS.dirs (write_all outputDir written fs) = FS.dirs fs.
Proof.
  revert fs. induction written as [|[name code] rest IH]; intros fs; [reflexivity |].
  simpl. now rewrite IH.
Qed.

Lemma overlay_default (written : list (string * string)) (name : string)
    (before : option string) :
  overlay written name before =
  match overlay written name None with Some c => Some c | None => before end.
Proof.
  revert before. induction written as [|[name' code] rest IH]; intros before;
    [reflexivity |].
  simpl. destruct (name =? name'); [| apply IH].
  rewrite (IH (Some code)).
  destruct (overlay rest name None); reflexivity.
Qed.

Lemma overlay_twice (written : list (string * string)) (name : string)
    (before : option string) :
  overlay written name (overlay written name before) = overlay written name before.
Proof.
  rewrite (overlay_default written name (overlay written name before)).
  rewrite (overlay_default written name before).
  destruct (overlay written name None); reflexivity.
Qed.

Lemma overlay_outside (written : list (string * string)) (name : string)
    (before : option string) :
  ~ In name (map fst written) -> overlay written name before = before.
Proof.
  revert before. induction written as [|[name' code] rest IH]; intros before Hout;
    [reflexivity |].
  simpl in *. assert (E : (name =? name') = false)
    by (apply String.eqb_neq; intros ->; auto).
  rewrite E. apply IH. auto.
Qed.

Lemma overlay_written (written : list (string * string)) (name code : string)
    (before : option string) :
  NoDup (map fst written) -> In (name, code) written ->
  overlay written name before = Some code.
Proof.
  revert before. induction written as [|[name' code'] rest IH]; intros before Hnd Hin;
    [contradiction |].
  simpl in *. inversion Hnd as [|? ? Hfresh Hnd']; subst.
  destruct Hin as [[= -> ->] | Hin].
  - rewrite String.eqb_refl. now apply overlay_outside.
  - apply IH; assumption.
Qed.

Lemma overlay_under (outputDir : string) (written : list (string * string))
    (name : string) (before : option string) :
  overlay (under outputDir written) (FS.path_join outputDir name) before =
  overlay written name before.
Proof.
  revert before. induction written as [|[name' code] rest IH]; intros before;
    [reflexivity |].
  simpl. rewrite IH.
  destruct (name =? name') eqn:E.
  - apply String.eqb_eq in E. subst. now rewrite String.eqb_refl.
  - assert (E' : (FS.path_join outputDir name =? FS.path_join outputDir name') = false).
    { apply String.eqb_neq. intros Hp. apply path_join_injective in Hp.
      apply String.eqb_neq in E. contradiction. }
    now rewrite E'.
Qed.

Lemma render_all_through (templateDir : string) (context : value) (fs : FS.t)
    (before after : list template) :
  (forall t, In t before -> exists code, render_one templateDir context fs t = Ok code) ->
  render_all templateDir context fs (before ++ after) =
  ((fst (render_all templateDir context fs before) ++
    fst (render_all templateDir context fs after))%list,
   snd (render_all templateDir context fs after)) /\
  map fst (fst (render_all templateDir context fs before)) = map output before /\
  (forall t code, In t before -> render_one templateDir context fs t = Ok code ->
                  In (output t, code) (fst (render_all templateDir context fs before))).
Proof.
  induction before as [|t rest IH]; simpl; intros Hall.
  - split; [now destruct (render_all templateDir context fs after) |].
    split; [reflexivity | intros t code []].
  - destruct (Hall t (or_introl eq_refl)) as [code Hcode]. rewrite Hcode.
    destruct IH as (Happ & Hnames & Hin); [intros; apply Hall; auto |].
    rewrite Happ.
    destruct (render_all templateDir context fs rest) as [written outcome]. simpl in *.
    split; [reflexivity |]. split; [now rewrite Hnames |].
    intros t' code' [<- | Hin'] Hr.
    + left. congruence.
    + right. now apply Hin.
Qed.

Lemma subseq_In {A : Type} (l1 l2 : list A) (x : A) :
  subseq l1 l2 -> In x l1 -> In x l2.
Proof.
  induction 1 as [| y l1 l2 _ IH | y l1 l2 _ IH]; simpl; [auto | auto |].
  intros [-> | Hin]; auto.
Qed.

Lemma subseq_NoDup {A : Type} (l1 l2 : list A) :
  subseq l1 l2 -> NoDup l2 -> NoDup l1.
Proof.
  induction 1 as [| y l1 l2 Hsub IH | y l1 l2 Hsub IH]; intros Hnd.
  - constructor.
  - inversion Hnd; subst. auto.
  - inversion Hnd as [| ? ? Hfresh Hrest]; subst. constructor; [| auto].
    intros Hin. apply Hfresh. eapply subseq_In; eassumption.
Qed.

Lemma subseq_map {A B : Type} (f : A -> B) (l1 l2 : list A) :
  subseq l1 l2 -> subseq (map f l1) (map f l2).
Proof. induction 1; simpl; constructor; assumption. Qed.

Lemma selected_outputs_distinct (activeServices : list string) :
  NoDup (map output (Staged.templatesToGenerate activeServices)).
Proof.
  apply (subseq_NoDup _ (map output ALL_TEMPLATES)).
  - apply subseq_map, filter_subseq.
  - simpl. repeat (constructor; [simpl; intuition discriminate |]). constructor.
Qed.

Lemma files_with_directory (outputDir : string) (fs : FS.t) :
  FS.files (with_directory outputDir fs) = FS.files fs.
Proof. unfold with_directory. destruct (negb _); reflexivity. Qed.

Lemma render_all_with_directory (outputDir : string) (context : value) (fs : FS.t)
    (templates : list template) :
  (forall t, FS.path_join "templates" (input t) <> outputDir) ->
  render_all "templates" context (with_directory outputDir fs) templates =
  render_all "templates" context fs templates.
Proof.
  intros Hapart. unfold with_directory. destruct (negb _); [| reflexivity].
  apply render_all_same. intros t _. apply render_one_mkdir_other, Hapart.
Qed.

Lemma Staged_main_factor (parsed : string + value) (fs : FS.t) (d : ProjectData)
    (activeServices : list string) :
  Staged.load_and_validate parsed = Ok (d, activeServices) ->
  Staged.main parsed fs =
  (snd (render_all "templates" (context_of d activeServices) fs
          (Staged.templatesToGenerate activeServices)),
   write_all "generated_contracts"
     (fst (render_all "templates" (context_of d activeServices) fs
             (Staged.templatesToGenerate activeServices)))
     (with_directory "generated_contracts" fs)).
Proof.
  intros Hvalid. unfold Staged.main, Staged.generateContracts. rewrite Hvalid.
  fold (with_directory "generated_contracts" fs).
  rewrite generate_each_factor by (intros t name _; simpl; discriminate).
  rewrite render_all_with_directory by (intros t; simpl; discriminate).
  reflexivity.
Qed.

Lemma existsSync_with_directory (outputDir : string) (written : list (string * string))
    (fs : FS.t) :
  FS.existsSync outputDir
    (write_all outputDir written (with_directory outputDir fs)) = true.
Proof.
  unfold FS.existsSync. rewrite dirs_write_all, lookup_write_all.
  rewrite overlay_default. destruct (overlay _ _ None); [apply orb_true_r |].
  unfold with_directory.
  destruct (negb (FS.existsSync outputDir fs)) eqn:E; simpl.
  - now rewrite String.eqb_refl.
  - apply negb_false_iff in E. exact E.
Qed.


Lemma render_all_succeeds (templateDir : string) (context : value) (fs : FS.t)
    (templates : list template) :
  (forall t, In t templates -> exists code, render_one templateDir context fs t = Ok code) ->
  snd (render_all templateDir context fs templates) = Ok tt /\
  map fst (fst (render_all templateDir context fs templates)) = map output templates /\
  (forall t code, In t templates -> render_one templateDir context fs t = Ok code ->
                  In (output t, code) (fst (render_all templateDir context fs templates))).
Proof.
  intros Hall.
  destruct (render_all_through templateDir context fs templates [] Hall)
    as (Happ & Hnames & Hin).
  rewrite app_nil_r in Happ. split; [now rewrite Happ | auto].
Qed.

Lemma render_all_stops (templateDir : string) (context : value) (fs : FS.t)
    (before after : list template) (t : template) (e : exn) :
  (forall t', In t' before ->
              exists code, render_one templateDir context fs t' = Ok code) ->
  render_one templateDir context fs t = Throw e ->
  render_all templateDir context fs (before ++ t :: after) =
  (fst (render_all templateDir context fs before), Throw e).
Proof.
  intros Hall Hfails.
  destruct (render_all_through templateDir context fs before (t :: after) Hall)
    as (Happ & _).
  rewrite Happ. cbn [render_all]. rewrite Hfails. cbn [fst snd].
  now rewrite app_nil_r.
Qed.

Lemma written_files (outputDir : string) (written : list (string * string)) (fs : FS.t) :
  NoDup (map fst written) ->
  (forall name code,
      In (name, code) written ->
      FS.lookup (FS.path_join outputDir name)
        (FS.files (write_all outputDir written (with_directory outputDir fs))) =
      Some code) /\
  (forall p,
      (forall name, In name (map fst written) -> p <> FS.path_join outputDir name) ->
      FS.lookup p (FS.files (write_all outputDir written (with_directory outputDir fs))) =
      FS.lookup p (FS.files fs)).
Proof.
  intros Hnd. split.
  - intros name code Hin. rewrite lookup_write_all, overlay_under.
    now apply overlay_written.
  - intros p Hout. rewrite lookup_write_all, files_with_directory.
    apply overlay_outside. unfold under. rewrite map_map. simpl.
    intros Hin. apply in_map_iff in Hin. destruct Hin as [[name code] [<- Hin]].
    apply (Hout name); [| reflexivity].
    apply in_map_iff. exists (name, code). auto.
Qed.

(** X9.  When the validation passes and every selected template is found
    and renders, the run succeeds, the output directory exists, every
    selected output holds the rendering of its template against the shared
    context, and every other file is as it was. *)
Theorem main_writes_the_selection (parsed : string + value) (fs : FS.t)
    (d : ProjectData) (activeServices : list string)
    (Hvalid : Staged.load_and_validate parsed = Ok (d, activeServices))
    (Hrender : forall t, In t (Staged.templatesToGenerate activeServices) ->
                 exists code,
                   render_one "templates" (context_of d activeServices) fs t = Ok code) :
  exists fs',
    Staged.main parsed fs = (Ok tt, fs') /\
    FS.existsSync "generated_contracts" fs' = true /\
    (forall t code,
        In t (Staged.templatesToGenerate activeServices) ->
        render_one "templates" (context_of d activeServices) fs t = Ok code ->
        FS.lookup (FS.path_join "generated_contracts" (output t)) (FS.files fs') =
        Some code) /\
    (forall p,
        (forall t, In t (Staged.templatesToGenerate activeServices) ->
                   p <> FS.path_join "generated_contracts" (output t)) ->
        FS.lookup p (FS.files fs') = FS.lookup p (FS.files fs)).
Proof.
  rewrite (Staged_main_factor _ fs _ _ Hvalid).
  destruct (render_all_succeeds "templates" (context_of d activeServices) fs
              (Staged.templatesToGenerate activeServices) Hrender)
    as (Hok & Hnames & Hin).
  rewrite Hok.
  eexists. split; [reflexivity |].
  split; [apply existsSync_with_directory |].
  assert (Hnd : NoDup (map fst (fst (render_all "templates" (context_of d activeServices)
                                       fs (Staged.templatesToGenerate activeServices)))))
    by (rewrite Hnames; apply selected_outputs_distinct).
  destruct (written_files "generated_contracts" _ fs Hnd) as [Hin' Hout].
  split.
  - intros t code Ht Hr. apply Hin'. now apply Hin.
  - intros p Hp. apply Hout. rewrite Hnames. intros name Hname.
    apply in_map_iff in Hname. destruct Hname as [t [<- Ht]]. now apply Hp.
Qed.

(** X10.  The first selected template that is missing, or does not render,
    ends the run with that error: the outputs of the templates before it are
    written and stay, and nothing else is touched, so the outputs of the
    failing template and of those after it are not written.  For a missing
    template the error is "Template not found:" with its path. *)
Theorem first_failure_stops_the_run (parsed : string + value) (fs : FS.t)
    (d : ProjectData) (activeServices : list string)
    (before after : list template) (t : template) (e : exn)
    (Hvalid : Staged.load_and_validate parsed = Ok (d, activeServices))
    (Hsplit : Staged.templatesToGenerate activeServices = (before ++ t :: after)%list)
    (Hbefore : forall t', In t' before ->
                 exists code,
                   render_one "templates" (context_of d activeServices) fs t' = Ok code)
    (Hfails : render_one "templates" (context_of d activeServices) fs t = Throw e) :
  exists fs',
    Staged.main parsed fs = (Throw e, fs') /\
    (forall t' code,
        In t' before ->
        render_one "templates" (context_of d activeServices) fs t' = Ok code ->
        FS.lookup (FS.path_join "generated_contracts" (output t')) (FS.files fs') =
        Some code) /\
    (forall p,
        (forall t', In t' before ->
                    p <> FS.path_join "generated_contracts" (output t')) ->
        FS.lookup p (FS.files fs') = FS.lookup p (FS.files fs)) /\
    (FS.existsSync (FS.path_join "templates" (input t)) fs = false ->
     e = Error ("Template not found: " ++ FS.path_join "templates" (input t))).
Proof.
  rewrite (Staged_main_factor _ fs _ _ Hvalid), Hsplit.
  rewrite (render_all_stops "templates" _ fs before after t e Hbefore Hfails).
  cbn [fst snd].
  destruct (render_all_succeeds "templates" (context_of d activeServices) fs
              before Hbefore) as (_ & Hnames & Hin).
  eexists. split; [reflexivity |].
  assert (Hnd : NoDup (map fst (fst (render_all "templates" (context_of d activeServices)
                                       fs before)))).
  { rewrite Hnames.
    pose proof (selected_outputs_distinct activeServices) as Hall.
    rewrite Hsplit, map_app in Hall. now apply NoDup_app_remove_r in Hall. }
  destruct (written_files "generated_contracts" _ fs Hnd) as [Hin' Hout].
  split; [| split].
  - intros t' code Ht Hr. apply Hin'. now apply Hin.
  - intros p Hp. apply Hout. rewrite Hnames. intros name Hname.
    apply in_map_iff in Hname. destruct Hname as [t' [<- Ht]]. now apply Hp.
  - intros Hmissing. revert Hfails. unfold render_one. rewrite Hmissing.
    cbn [negb]. now intros [= <-].
Qed.

Lemma render_one_write_all (outputDir : string) (written : list (string * string))
    (context : value) (fs : FS.t) (t : template) :
  (forall name, FS.path_join "templates" (input t) <> FS.path_join outputDir name) ->
  render_one "templates" context (write_all outputDir written fs) t =
  render_one "templates" context fs t.
Proof.
  intros Hapart. revert fs.
  induction written as [|[name code] rest IH]; intros fs; [reflexivity |].
  simpl. rewrite IH. apply render_one_write_other, Hapart.
Qed.

(** X11.  Running the staged script again on what it left gives the same
    outcome and leaves every file and every directory as the first run left
    them. *)
Theorem running_twice (parsed : string + value) (fs : FS.t) :
  let first := Staged.main parsed fs in
  let second := Staged.main parsed (snd first) in
  fst second = fst first /\
  FS.dirs (snd second) = FS.dirs (snd first) /\
  forall p, FS.lookup p (FS.files (snd second)) = FS.lookup p (FS.files (snd first)).
Proof.
  destruct (Staged.load_and_validate parsed) as [[d act] | e] eqn:Hvalid.
  2:{ unfold Staged.main. rewrite Hvalid. cbn [fst snd]. rewrite ?Hvalid. auto. }
  rewrite (Staged_main_factor _ fs _ _ Hvalid). cbv zeta. cbn [fst snd].
  rewrite (Staged_main_factor _ _ _ _ Hvalid).
  set (written := fst (render_all "templates" (context_of d act) fs
                         (Staged.templatesToGenerate act))).
  assert (Hsame : render_all "templates" (context_of d act)
                    (write_all "generated_contracts" written
                       (with_directory "generated_contracts" fs))
                    (Staged.templatesToGenerate act) =
                  render_all "templates" (context_of d act) fs
                    (Staged.templatesToGenerate act)).
  { rewrite <- (render_all_with_directory "generated_contracts" _ fs)
      by (intros t; simpl; discriminate).
    apply render_all_same. intros t _.
    apply render_one_write_all. intros name. simpl. discriminate. }
  rewrite Hsame. fold written. cbn [fst snd].
  assert (Hdir : with_directory "generated_contracts"
                   (write_all "generated_contracts" written
                      (with_directory "generated_contracts" fs)) =
                 write_all "generated_contracts" written
                   (with_directory "generated_contracts" fs)).
  { unfold with_directory at 1. now rewrite existsSync_with_directory. }
  rewrite Hdir. split; [reflexivity |]. split; [now rewrite dirs_write_all |].
  intros p. rewrite lookup_write_all, lookup_write_all. apply overlay_twice.
Qed.

Lemma Mono_script_factor (parsed : string + value) (fs : FS.t) (d : ProjectData)
    (activeServices : list string) :
  Mono.load parsed = Ok d ->
  Mono.infer_and_validate d = Ok activeServices ->
  Mono.script parsed fs =
  (snd (render_all "templates" (context_of d activeServices) fs
          (Staged.templatesToGenerate activeServices)),
   write_all "Generated_contracts"
     (fst (render_all "templates" (context_of d activeServices) fs
             (Staged.templatesToGenerate activeServices)))
     (with_directory "Generated_contracts" fs)).
Proof.
  intros Hload Hvalid. unfold Mono.script. rewrite Hload, Hvalid.
  fold (with_directory "Generated_contracts" fs).
  rewrite Mono_selects_catalog.
  change Mono.templateDir with "templates".
  rewrite generate_each_factor by (intros t name _; simpl; discriminate).
  rewrite render_all_with_directory by (intros t; simpl; discriminate).
  reflexivity.
Qed.

(** X12.  On a configuration that loads and whose table-holding sections
    hold their tables, the one-file script ends as the staged one does, and
    what it leaves under [Generated_contracts] is what the staged script
    leaves under [generated_contracts], name by name, wherever the two
    directories agreed before. *)
Theorem both_scripts_write_the_same (parsed : string + value) (fs : FS.t)
    (d : ProjectData)
    (Hload : Staged.loadProjectData "tokenomicsData.json" parsed = Ok d)
    (Htables : tables_present d) :
  fst (Mono.script parsed fs) = fst (Staged.main parsed fs) /\
  forall name,
    FS.lookup (FS.path_join "Generated_contracts" name) (FS.files fs) =
    FS.lookup (FS.path_join "generated_contracts" name) (FS.files fs) ->
    FS.lookup (FS.path_join "Generated_contracts" name)
      (FS.files (snd (Mono.script parsed fs))) =
    FS.lookup (FS.path_join "generated_contracts" name)
      (FS.files (snd (Staged.main parsed fs))).
Proof.
  pose proof (Mono_load_agrees _ _ Hload) as Hmono.
  pose proof (Mono_infer_and_validate_agrees d (Staged_load_loaded _ _ _ Hload) Htables)
    as Hinfer.
  assert (Hstaged : Staged.load_and_validate parsed =
                    (activeServices <- Staged.determineActiveServices d ;;
                     Staged.validateServiceData activeServices d ;;;
                     Ok (d, activeServices))).
  { unfold Staged.load_and_validate. rewrite Hload. reflexivity. }
  destruct (Staged.determineActiveServices d) as [act | e] eqn:Hact; simpl in *.
  - destruct (Staged.validateServiceData act d) as [[] | e] eqn:Hv; simpl in *.
    + rewrite (Mono_script_factor _ fs _ _ Hmono Hinfer),
              (Staged_main_factor _ fs _ _ Hstaged). cbn [fst snd].
      split; [reflexivity |]. intros name Hagree.
      rewrite !lookup_write_all, !overlay_under, !files_with_directory.
      now rewrite Hagree.
    + unfold Mono.script, Staged.main. rewrite Hmono, Hinfer, Hstaged. simpl.
      split; [reflexivity |]. intros name Hagree.
      fold (with_directory "Generated_contracts" fs).
      now rewrite files_with_directory.
  - unfold Mono.script, Staged.main. rewrite Hmono, Hinfer, Hstaged. simpl.
    split; [reflexivity |]. intros name Hagree.
    fold (with_directory "Generated_contracts" fs).
    now rewrite files_with_directory.
Qed.


(** X13.  Once the one-file script has loaded its configuration its output
    directory exists at the end of the run whatever happens next, also when
    the validation fails and nothing is written. *)
Theorem Mono_directory_comes_first (parsed : string + value) (fs : FS.t)
    (d : ProjectData) (Hload : Mono.load parsed = Ok d) :
  FS.existsSync "Generated_contracts" (snd (Mono.script parsed fs)) = true.
Proof.
  destruct (Mono.infer_and_validate d) as [act | e] eqn:Hvalid.
  - rewrite (Mono_script_factor _ fs _ _ Hload Hvalid). cbn [snd].
    apply existsSync_with_directory.
  - unfold Mono.script. rewrite Hload, Hvalid. cbn [snd].
    apply (existsSync_with_directory "Generated_contracts" [] fs).
Qed.

(** *** The report of the skipped services *)

(** X14.  The services the one-file script reports as skipped are exactly
    the services that are not active: each of the five services is either
    active or skipped, never both, and nothing is skipped exactly when all
    five are active. *)
Theorem skipped_services_complement (d : ProjectData) (activeServices : list string)
    (Hactive : Staged.determineActiveServices d = Ok activeServices) :
  (forall s, In s possibleServices <->
             In s activeServices \/ In s (skippedServices activeServices)) /\
  (forall s, ~ (In s activeServices /\ In s (skippedServices activeServices))) /\
  (List.length activeServices + List.length (skippedServices activeServices) = 5)%nat /\
  (skippedServices activeServices = [] <-> activeServices = possibleServices).
Proof.
  revert Hactive. unfold Staged.determineActiveServices.
  destruct (array_some positive_amount _) as [somePool | e]; [| discriminate].
  simpl. intros [= <-]. unfold push_if.
  repeat match goal with
         | |- context [if ?c then _ else _] => destruct c
         end; cbn;
    (split; [intros s; tauto |]);
    (split; [intros s; intuition (subst; discriminate) |]);
    (split; [reflexivity |]); split; intros E; try reflexivity; discriminate E.
Qed.

(** *** The helpers *)

(** X15.  On an object or an array the helper [length] gives the number of
    rows that [getRowsArray] gives; on [undefined] and [null], which
    [getRowsArray] takes for no rows, the helper throws a [TypeError]. *)
Theorem length_helper_counts_rows (rows : value) :
  (primitive rows = false ->
   Helpers.length rows =
   Ok (VNumber (of_Z (Z.of_nat (List.length (getRowsArray rows)))))) /\
  (nullish rows = true ->
   Helpers.length rows = Throw TypeError /\ getRowsArray rows = []).
Proof.
  split.
  - destruct rows; simpl; try discriminate; intros _;
      unfold Helpers.length, getRowsArray; simpl; now rewrite ?length_map.
  - destruct rows; simpl; try discriminate; auto.
Qed.

Lemma SFmul_commutes (x y : number) : SFmul 53 1024 x y = SFmul 53 1024 y x.
Proof.
  destruct x as [sx | sx | | sx mx ex], y as [sy | sy | | sy my ey]; simpl;
    try reflexivity; try (now rewrite xorb_comm).
  now rewrite xorb_comm, Pos.mul_comm, Z.add_comm.
Qed.

(** X16.  The helper [multiply] always gives a number.  It gives the
    product, without a warning, exactly when both operands are numbers; in
    every other case, numeric strings included, it gives zero and warns.  The
    value does not depend on the order of the operands. *)
Theorem multiply_numbers_only (a b v : value) (warning : option string)
    (Hgives : Helpers.multiply a b = Ok (v, warning)) :
  (exists n, v = VNumber n) /\
  (warning = None <-> exists x y, a = VNumber x /\ b = VNumber y) /\
  (forall x y, a = VNumber x -> b = VNumber y -> v = VNumber (SFmul 53 1024 x y)) /\
  (warning <> None -> v = VNumber pos_zero) /\
  (exists warning', Helpers.multiply b a = Ok (v, warning')).
Proof.
  assert (Hnumber : forall u, (typeof u =? "number") = true <-> exists x, u = VNumber x).
  { intros u. destruct u; simpl; split; intros Hu; try discriminate; eauto;
      destruct Hu as [x Hu]; discriminate. }
  revert Hgives. unfold Helpers.multiply.
  destruct (negb (typeof a =? "number") || negb (typeof b =? "number")) eqn:Hnon.
  - destruct (ToString a) as [printed_a | e] eqn:Ha; cbn [bind]; [| discriminate].
    destruct (ToString b) as [printed_b | e] eqn:Hb; cbn [bind]; [| discriminate].
    intros [= <- <-].
    assert (Hnot : ~ exists x y, a = VNumber x /\ b = VNumber y).
    { intros (x & y & -> & ->). discriminate Hnon. }
    split; [eauto |]. split; [split; [discriminate | intros E; contradiction] |].
    split; [intros x y -> ->; discriminate Hnon |].
    split; [reflexivity |].
    rewrite orb_comm, Hnon. cbn [bind]. eauto.
  - apply orb_false_iff in Hnon. destruct Hnon as [Ta Tb].
    apply negb_false_iff in Ta, Tb.
    destruct (proj1 (Hnumber a) Ta) as [x ->], (proj1 (Hnumber b) Tb) as [y ->].
    unfold Helpers.times. cbn [ToNumber bind]. intros [= <- <-].
    split; [eauto |]. split; [split; [eauto | reflexivity] |].
    split; [intros x' y' [= <-] [= <-]; reflexivity |].
    split; [intros E; contradiction |].
    cbn. rewrite SFmul_commutes. eauto.
Qed.


Lemma render_all_names_selected (templateDir : string) (context : value) (fs : FS.t)
    (templates : list template) (name : string) :
  In name (map fst (fst (render_all templateDir context fs templates))) ->
  In name (map output templates).
Proof.
  induction templates as [|t rest IH]; simpl; [auto |].
  destruct (render_one templateDir context fs t) as [code | e]; simpl; [| contradiction].
  destruct (render_all templateDir context fs rest) as [written outcome]. simpl in *.
  intros [<- | Hin]; auto.
Qed.

Lemma write_all_stays_inside (outputDir : string) (written : list (string * string))
    (fs : FS.t) (p : string) :
  (forall name, In name (map fst written) -> p <> FS.path_join outputDir name) ->
  FS.lookup p (FS.files (write_all outputDir written (with_directory outputDir fs))) =
  FS.lookup p (FS.files fs).
Proof.
  intros Hout. rewrite lookup_write_all, files_with_directory.
  apply overlay_outside. unfold under. rewrite map_map. simpl.
  intros Hin. apply in_map_iff in Hin. destruct Hin as [[name code] [<- Hin]].
  apply (Hout name); [| reflexivity].
  apply in_map_iff. exists (name, code). auto.
Qed.

(** X17.  Whatever the input and however the run ends, a script changes no
    file other than the six catalog outputs under its own output directory:
    every other path, the templates and the configuration among them, holds
    after the run what it held before. *)
Theorem only_outputs_are_written (parsed : string + value) (fs : FS.t) (p : string) :
  ((forall t, In t ALL_TEMPLATES -> p <> FS.path_join "generated_contracts" (output t)) ->
   FS.lookup p (FS.files (snd (Staged.main parsed fs))) = FS.lookup p (FS.files fs)) /\
  ((forall t, In t ALL_TEMPLATES -> p <> FS.path_join "Generated_contracts" (output t)) ->
   FS.lookup p (FS.files (snd (Mono.script parsed fs))) = FS.lookup p (FS.files fs)).
Proof.
  assert (Hcatalog : forall act name context,
             In name (map fst (fst (render_all "templates" context fs
                                      (Staged.templatesToGenerate act)))) ->
             exists t, In t ALL_TEMPLATES /\ output t = name).
  { intros act name context Hin. apply render_all_names_selected in Hin.
    apply in_map_iff in Hin. destruct Hin as [t [Ht Hin]].
    apply filter_In in Hin. exists t. tauto. }
  split; intros Hp.
  - destruct (Staged.load_and_validate parsed) as [[d act] | e] eqn:Hvalid.
    + rewrite (Staged_main_factor _ fs _ _ Hvalid). cbn [snd].
      apply write_all_stays_inside. intros name Hin.
      destruct (Hcatalog _ _ _ Hin) as [t [Ht <-]]. now apply Hp.
    + unfold Staged.main. rewrite Hvalid. reflexivity.
  - destruct (Mono.load parsed) as [d | e] eqn:Hload.
    + destruct (Mono.infer_and_validate d) as [act | e] eqn:Hvalid.
      * rewrite (Mono_script_factor _ fs _ _ Hload Hvalid). cbn [snd].
        apply write_all_stays_inside. intros name Hin.
        destruct (Hcatalog _ _ _ Hin) as [t [Ht <-]]. now apply Hp.
      * unfold Mono.script. rewrite Hload, Hvalid. cbn [snd].
        fold (with_directory "Generated_contracts" fs).
        now rewrite files_with_directory.
    + unfold Mono.script. rewrite Hload. reflexivity.
Qed.

End Further.

(** ** The further properties on samples *)

Lemma active_services_in_order_witness :
  Staged.determineActiveServices (H := SampleHost.host)
    Samples.vesting_and_unlocking_no_agents = Ok ["vesting"; "unlocking"; "pools"] /\
  subseq ["vesting"; "unlocking"; "pools"] possibleServices /\
  NoDup ["vesting"; "unlocking"; "pools"].
Proof.
  assert (Hactive : Staged.determineActiveServices (H := SampleHost.host)
                      Samples.vesting_and_unlocking_no_agents =
                    Ok ["vesting"; "unlocking"; "pools"])
    by (vm_compute; reflexivity).
  split; [exact Hactive |].
  exact (active_services_in_order (H := SampleHost.host) _ _ Hactive).
Defined.

Lemma row_presence_activation_witness :
  Staged.determineActiveServices (H := SampleHost.host) Samples.null_unlocking_row =
    Ok ["unlocking"] /\
  (In "unlocking" ["unlocking"] <->
   holds_rows (Staged.rows_at (vestingAndUnlocking Samples.null_unlocking_row)
                 "tables" "unlocking")).
Proof.
  assert (Hactive : Staged.determineActiveServices (H := SampleHost.host)
                      Samples.null_unlocking_row = Ok ["unlocking"])
    by (vm_compute; reflexivity).
  split; [exact Hactive |].
  exact (proj1 (proj2 (row_presence_activation (H := SampleHost.host) _ _ Hactive))).
Defined.

Lemma empty_tables_minimal_project_witness :
  Staged.determineActiveServices (H := SampleHost.host) MoreSamples.no_rows = Ok [] /\
  map output (Staged.templatesToGenerate []) = ["Token.sol"; "IToken.sol"].
Proof.
  destruct (empty_tables_minimal_project (H := SampleHost.host) MoreSamples.no_rows
              eq_refl eq_refl eq_refl eq_refl eq_refl) as (Hnone & _ & Htwo & _).
  split; [exact Hnone | exact Htwo].
Defined.

Lemma selection_depends_on_three_witness :
  Staged.templatesToGenerate ["vesting"; "staking"] =
  Staged.templatesToGenerate ["farming"; "vesting"].
Proof.
  apply (proj1 (selection_depends_on_three ["vesting"; "staking"] ["farming"; "vesting"]));
    simpl; intuition discriminate.
Defined.

Lemma selection_grows_witness :
  subseq (Staged.templatesToGenerate ["unlocking"])
         (Staged.templatesToGenerate ["vesting"; "unlocking"]).
Proof.
  apply (selection_grows ["unlocking"] ["vesting"; "unlocking"]).
  intros s Hin. simpl in *. tauto.
Defined.

Lemma context_reflects_configuration_witness :
  Staged.determineActiveServices (H := SampleHost.host) Samples.vesting_idle_pool =
    Ok ["vesting"] /\
  (get_opt (context_of Samples.vesting_idle_pool ["vesting"]) "hasVesting" = VBool true <->
   vesting_rows Samples.vesting_idle_pool <> []).
Proof.
  assert (Hactive : Staged.determineActiveServices (H := SampleHost.host)
                      Samples.vesting_idle_pool = Ok ["vesting"])
    by (vm_compute; reflexivity).
  split; [exact Hactive |].
  exact (proj1 (proj2 (context_reflects_configuration (H := SampleHost.host) _ _ Hactive))).
Defined.

Lemma errors_before_output_witness :
  Staged.load_and_validate (H := SampleHost.host) (inl "Unexpected end of JSON input") =
    Throw (ConfigLoadError "tokenomicsData.json" "Unexpected end of JSON input") /\
  ((exists message,
       @inl string value "Unexpected end of JSON input" = inl message /\
       ConfigLoadError "tokenomicsData.json" "Unexpected end of JSON input" =
       ConfigLoadError "tokenomicsData.json" message) \/
   ConfigLoadError "tokenomicsData.json" "Unexpected end of JSON input" =
     MissingRequiredFieldError \/
   validation_error
     (ConfigLoadError "tokenomicsData.json" "Unexpected end of JSON input")).
Proof.
  assert (Hthrown : Staged.load_and_validate (H := SampleHost.host)
                      (inl "Unexpected end of JSON input") =
                    Throw (ConfigLoadError "tokenomicsData.json"
                             "Unexpected end of JSON input"))
    by reflexivity.
  split; [exact Hthrown |].
  exact (errors_before_output (H := SampleHost.host) _ _ Hthrown).
Defined.

Lemma validation_passes_iff_witness :
  Staged.determineActiveServices (H := SampleHost.host) Samples.unlocking_only_loaded =
    Ok ["unlocking"] /\
  Staged.validateServiceData (H := SampleHost.host) ["unlocking"]
    Samples.unlocking_only_loaded = Ok tt.
Proof.
  assert (Hactive : Staged.determineActiveServices (H := SampleHost.host)
                      Samples.unlocking_only_loaded = Ok ["unlocking"])
    by (vm_compute; reflexivity).
  split; [exact Hactive |].
  assert (Hloaded : loaded Samples.unlocking_only_loaded)
    by (vm_compute; repeat split; reflexivity).
  assert (Hrows : In "unlocking" ["unlocking"] ->
                  Forall (fun row => nullish row = false)
                         (agent_rows Samples.unlocking_only_loaded) /\
                  Forall (fun row => nullish row = false)
                         (round_rows Samples.unlocking_only_loaded) /\
                  Forall (fun row => nullish row = false)
                         (unlocking_rows Samples.unlocking_only_loaded))
    by (intros _; vm_compute; repeat constructor).
  apply (proj2 (validation_passes_iff (H := SampleHost.host) _ _ Hloaded Hactive Hrows)).
  split.
  - simpl. intros [E | []]. discriminate E.
  - intros _. split; [left; vm_compute; discriminate |].
    intros row Hin. vm_compute in Hin. destruct Hin as [<- | []]. vm_compute. reflexivity.
Defined.

Lemma main_writes_the_selection_witness :
  Staged.load_and_validate (H := SampleHost.host) (inr Samples.vesting_idle_pool_document) =
    Ok (Samples.vesting_idle_pool, ["vesting"]) /\
  exists fs',
    Staged.main (H := SampleHost.host) (inr Samples.vesting_idle_pool_document)
      Samples.disk = (Ok tt, fs') /\
    FS.lookup "generated_contracts/Vesting.sol" (FS.files fs') = Some "// Vesting.sol" /\
    FS.lookup "templates/Vesting.sol.hbs" (FS.files fs') = Some "// Vesting.sol".
Proof.
  assert (Hvalid : Staged.load_and_validate (H := SampleHost.host)
                     (inr Samples.vesting_idle_pool_document) =
                   Ok (Samples.vesting_idle_pool, ["vesting"]))
    by (vm_compute; reflexivity).
  split; [exact Hvalid |].
  assert (Hrender : forall t, In t (Staged.templatesToGenerate ["vesting"]) ->
            exists code,
              render_one (H := SampleHost.host) "templates"
                (context_of Samples.vesting_idle_pool ["vesting"]) Samples.disk t =
              Ok code).
  { intros t Hin. vm_compute in Hin.
    repeat (destruct Hin as [<- | Hin]; [eexists; vm_compute; reflexivity |]).
    contradiction. }
  destruct (main_writes_the_selection (H := SampleHost.host) _ Samples.disk _ _
              Hvalid Hrender) as (fs' & Hmain & _ & Hwritten & Hkept).
  exists fs'. split; [exact Hmain |]. split.
  - apply (Hwritten MoreSamples.vesting_template "// Vesting.sol");
      [vm_compute; auto | vm_compute; reflexivity].
  - rewrite Hkept; [vm_compute; reflexivity |].
    intros t _. simpl. discriminate.
Defined.

Lemma first_failure_stops_the_run_witness :
  Staged.templatesToGenerate ["vesting"] =
    ([MoreSamples.token_template] ++
     MoreSamples.vesting_template :: skipn 2 (Staged.templatesToGenerate ["vesting"]))%list /\
  exists fs',
    Staged.main (H := SampleHost.host) (inr Samples.vesting_idle_pool_document)
      MoreSamples.disk_without_vesting =
    (Throw (Error "Template not found: templates/Vesting.sol.hbs"), fs') /\
    FS.lookup "generated_contracts/Token.sol" (FS.files fs') = Some "// Token.sol" /\
    FS.lookup "generated_contracts/PoolManager.sol" (FS.files fs') = None.
Proof.
  assert (Hvalid : Staged.load_and_validate (H := SampleHost.host)
                     (inr Samples.vesting_idle_pool_document) =
                   Ok (Samples.vesting_idle_pool, ["vesting"]))
    by (vm_compute; reflexivity).
  assert (Hsplit : Staged.templatesToGenerate ["vesting"] =
                   ([MoreSamples.token_template] ++
                    MoreSamples.vesting_template ::
                    skipn 2 (Staged.templatesToGenerate ["vesting"]))%list)
    by reflexivity.
  split; [exact Hsplit |].
  assert (Hbefore : forall t', In t' [MoreSamples.token_template] ->
            exists code,
              render_one (H := SampleHost.host) "templates"
                (context_of Samples.vesting_idle_pool ["vesting"])
                MoreSamples.disk_without_vesting t' = Ok code).
  { intros t' [<- | []]. eexists. vm_compute. reflexivity. }
  assert (Hfails : render_one (H := SampleHost.host) "templates"
                     (context_of Samples.vesting_idle_pool ["vesting"])
                     MoreSamples.disk_without_vesting MoreSamples.vesting_template =
                   Throw (Error "Template not found: templates/Vesting.sol.hbs"))
    by (vm_compute; reflexivity).
  destruct (first_failure_stops_the_run (H := SampleHost.host) _
              MoreSamples.disk_without_vesting _ _ _ _ _ _
              Hvalid Hsplit Hbefore Hfails) as (fs' & Hmain & Hwritten & Hkept & _).
  exists fs'. split; [exact Hmain |]. split.
  - apply (Hwritten MoreSamples.token_template "// Token.sol");
      [simpl; auto | vm_compute; reflexivity].
  - rewrite Hkept; [vm_compute; reflexivity |].
    intros t' [<- | []]. vm_compute. discriminate.
Defined.

Lemma both_scripts_write_the_same_witness :
  Staged.loadProjectData "tokenomicsData.json" (inr Samples.unlocking_only) =
    Ok Samples.unlocking_only_loaded /\
  tables_present Samples.unlocking_only_loaded /\
  FS.lookup "Generated_contracts/Unlocking.sol"
    (FS.files (snd (Mono.script (H := SampleHost.host) (inr Samples.unlocking_only)
                      Samples.disk))) =
  FS.lookup "generated_contracts/Unlocking.sol"
    (FS.files (snd (Staged.main (H := SampleHost.host) (inr Samples.unlocking_only)
                      Samples.disk))).
Proof.
  assert (Hload : Staged.loadProjectData "tokenomicsData.json"
                    (inr Samples.unlocking_only) = Ok Samples.unlocking_only_loaded)
    by (vm_compute; reflexivity).
  assert (Htables : tables_present Samples.unlocking_only_loaded)
    by (vm_compute; repeat split; reflexivity).
  split; [exact Hload |]. split; [exact Htables |].
  apply (proj2 (both_scripts_write_the_same (H := SampleHost.host) _ Samples.disk _
                  Hload Htables) "Unlocking.sol").
  vm_compute. reflexivity.
Defined.

Lemma Mono_directory_comes_first_witness :
  Mono.load (inr Samples.vesting_alone_document) = Ok Samples.vesting_alone /\
  fst (Mono.script (H := SampleHost.host) (inr Samples.vesting_alone_document)
         Samples.disk) = Throw (VestingDataError "Vesting requires pool data") /\
  FS.existsSync "Generated_contracts"
    (snd (Mono.script (H := SampleHost.host) (inr Samples.vesting_alone_document)
            Samples.disk)) = true.
Proof.
  assert (Hload : Mono.load (inr Samples.vesting_alone_document) =
                  Ok Samples.vesting_alone)
    by (vm_compute; reflexivity).
  split; [exact Hload |]. split; [vm_compute; reflexivity |].
  exact (Mono_directory_comes_first (H := SampleHost.host) _ Samples.disk _ Hload).
Defined.

Lemma skipped_services_complement_witness :
  Staged.determineActiveServices (H := SampleHost.host) Samples.vesting_idle_pool =
    Ok ["vesting"] /\
  (List.length ["vesting"] + List.length (skippedServices ["vesting"]) = 5)%nat.
Proof.
  assert (Hactive : Staged.determineActiveServices (H := SampleHost.host)
                      Samples.vesting_idle_pool = Ok ["vesting"])
    by (vm_compute; reflexivity).
  split; [exact Hactive |].
  exact (proj1 (proj2 (proj2 (skipped_services_complement (H := SampleHost.host) _ _
                                Hactive)))).
Defined.

Lemma length_helper_counts_rows_witness :
  Helpers.length (VObject [("a1", VNull); ("a2", VObject [])]) =
  Ok (VNumber (of_Z 2)).
Proof.
  exact (proj1 (length_helper_counts_rows (VObject [("a1", VNull); ("a2", VObject [])]))
               eq_refl).
Defined.

Lemma multiply_numbers_only_witness :
  Helpers.multiply (H := SampleHost.host) (VString "3") (VNumber (of_Z 2)) =
    Ok (VNumber pos_zero,
        Some "Multiply helper received non-numeric values: a=3, b=2") /\
  exists warning',
    Helpers.multiply (H := SampleHost.host) (VNumber (of_Z 2)) (VString "3") =
    Ok (VNumber pos_zero, warning').
Proof.
  assert (Hgives : Helpers.multiply (H := SampleHost.host) (VString "3")
                     (VNumber (of_Z 2)) =
                   Ok (VNumber pos_zero,
                       Some "Multiply helper received non-numeric values: a=3, b=2"))
    by (vm_compute; reflexivity).
  split; [exact Hgives |].
  exact (proj2 (proj2 (proj2 (proj2 (multiply_numbers_only (H := SampleHost.host)
                                       _ _ _ _ Hgives))))).
Defined.

Lemma only_outputs_are_written_witness :
  FS.lookup "templates/Token.sol.hbs"
    (FS.files (snd (Staged.main (H := SampleHost.host)
                      (inr Samples.vesting_idle_pool_document) Samples.disk))) =
  FS.lookup "templates/Token.sol.hbs" (FS.files Samples.disk).
Proof.
  apply (proj1 (only_outputs_are_written (H := SampleHost.host)
                  (inr Samples.vesting_idle_pool_document) Samples.disk
                  "templates/Token.sol.hbs")).
  intros t _. simpl. discriminate.
Defined.
